(** * PR curves plugin: a shallow embedding of [pr_curves_plugin.py]

    The plugin serves precision/recall curve data read from an event
    multiplexer.  Its methods are embedded in a small monad that threads
    the plugin object ([self]) and the chronological list of calls made
    on the multiplexer, and that carries Python exceptions as values. *)

From Stdlib Require Import ZArith String List.
From Stdlib Require Import Floats.SpecFloat.
From stdpp Require Import base option list strings gmap.

Open Scope string_scope.
Open Scope list_scope.

(** ** Python values used by the plugin *)

(** Python floats are IEEE 754 values; the plugin only copies them. *)
Definition float : Type := spec_float.

(** The array produced by [tf.make_ndarray]: rows along the first axis. *)
Definition ndarray : Type := list (list float).

(** A Python [dict] as received from the store, in its iteration order. *)
Definition pydict (V : Type) : Type := list (string * V).

Definition keys {V} (d : pydict V) : list string := map fst d.
Definition itervalues {V} (d : pydict V) : list V := map snd d.
Definition items {V} (d : pydict V) : list (string * V) := d.

(** Truth value of a dict: [not d] holds exactly for the empty dict. *)
Definition dict_truthy {V} (d : pydict V) : bool :=
  match d with
  | [] => false
  | _ :: _ => true
  end.

(** Python's builtin [any]. *)
Definition any {A} (truth : A -> bool) (xs : list A) : bool := existsb truth xs.

(** Exceptions the embedded code can raise. *)
Inductive exn : Type :=
  | KeyError
  | ValueError (msg : string)
  | IndexError
  | AttributeError.

Inductive outcome (A : Type) : Type :=
  | Return (a : A)
  | Raise (e : exn).
Arguments Return {A} a.
Arguments Raise {A} e.

(** [str(e)] for the exceptions above. *)
Definition str_exn (e : exn) : string :=
  match e with
  | ValueError msg => msg
  | KeyError => "KeyError"
  | IndexError => "IndexError"
  | AttributeError => "AttributeError"
  end.

(** [a[i]] on the first axis of an array; out of range raises. *)
Definition getitem (a : ndarray) (i : nat) : outcome (list float) :=
  match a !! i with
  | Some row => Return row
  | None => Raise IndexError
  end.

(** [row.tolist()]: the row as a plain Python list. *)
Definition tolist (row : list float) : list float := row.

(** ** werkzeug request arguments *)

Record Request : Type := { args : list (string * string) }.

(** [MultiDict.getlist(key)]: every value given for [key], in order. *)
Fixpoint getlist (a : list (string * string)) (key : string) : list string :=
  match a with
  | [] => []
  | (k, v) :: rest =>
      if String.eqb k key then v :: getlist rest key else getlist rest key
  end.

(** [MultiDict.get(key)]: the first value given for [key], or [None]. *)
Definition get (a : list (string * string)) (key : string) : option string :=
  match getlist a key with
  | [] => None
  | v :: _ => Some v
  end.

(** [not tag] for a value that is [None] or a string. *)
Definition str_falsy (s : option string) : bool :=
  match s with
  | None => true
  | Some v => String.eqb v ""
  end.

(** ** tensorboard.plugins.pr_curve.metadata *)

Module metadata.

(** Modelled from the spec: the [metadata] module is not part of the
    sources at hand; the data model fixes the first-axis layout of the
    payload as index 0 = precision vector, index 1 = recall vector. *)
Definition PRECISION_INDEX : nat := 0.
Definition RECALL_INDEX : nat := 1.

End metadata.

(** What the plugin imports and the sources at hand do not define:
    [metadata.PLUGIN_NAME], Python's [repr] on strings (the [%r]
    conversion), the tensor protocol buffer and [tf.make_ndarray]. *)
Class Externals : Type := {
  PLUGIN_NAME : string;
  repr : string -> string;
  TensorProto : Type;
  make_ndarray : TensorProto -> ndarray
}.

Section Plugin.

Context `{Externals}.

(** ** The event store *)

Record TensorEvent : Type := {
  wall_time : float;
  step : Z;
  tensor_proto : TensorProto
}.

(** The two queries of the multiplexer the plugin consumes.  [Tensors]
    answers [None] where the Python method raises [KeyError]. *)
Record EventMultiplexer : Type := {
  Tensors : string -> string -> option (list TensorEvent);
  PluginRunToTagToContent : string -> pydict (pydict string)
}.

Record TBContext : Type := {
  logdir : string;
  multiplexer : option EventMultiplexer
}.

(** Calls issued on the multiplexer, as recorded in the heap. *)
Inductive StoreCall : Type :=
  | CallTensors (run tag : string)
  | CallPluginRunToTagToContent (plugin_name : string).

(** ** The plugin object and the monad of its methods *)

Record PrCurvesPlugin : Type := { _multiplexer : option EventMultiplexer }.

Definition PrCurvesPlugin__init__ (context : TBContext) : PrCurvesPlugin :=
  {| _multiplexer := multiplexer context |}.

Record heap : Type := {
  self : PrCurvesPlugin;
  calls : list StoreCall
}.

Definition Py (A : Type) : Type := heap -> outcome A * heap.

#[global] Instance Py_ret : MRet Py := fun A a h => (Return a, h).

#[global] Instance Py_bind : MBind Py := fun A B f m h =>
  match m h with
  | (Return a, h') => f a h'
  | (Raise e, h') => (Raise e, h')
  end.

Definition raise {A} (e : exn) : Py A := fun h => (Raise e, h).

(** [try: body except KeyError: handler]. *)
Definition try_except_KeyError {A} (body : Py A) (handler : Py A) : Py A :=
  fun h =>
    match body h with
    | (Raise KeyError, h') => handler h'
    | r => r
    end.

(** [try: body except ValueError as e: handler(e)]. *)
Definition try_except_ValueError {A} (body : Py A) (handler : exn -> Py A)
  : Py A :=
  fun h =>
    match body h with
    | (Raise (ValueError msg), h') => handler (ValueError msg) h'
    | r => r
    end.

(** Lifting of a computation that touches neither [self] nor the store. *)
Definition lift {A} (o : outcome A) : Py A := fun h => (o, h).

(** A list comprehension [[f(x) for x in xs]] whose body may raise. *)
Fixpoint comprehension {A B} (f : A -> Py B) (xs : list A) : Py (list B) :=
  match xs with
  | [] => mret []
  | x :: rest =>
      y ← f x;
      ys ← comprehension f rest;
      mret (y :: ys)
  end.

Definition log_call (c : StoreCall) (h : heap) : heap :=
  {| self := self h; calls := calls h ++ [c] |}.

(** [self._multiplexer]. *)
Definition self_multiplexer : Py (option EventMultiplexer) :=
  fun h => (Return (_multiplexer (self h)), h).

(** [self._multiplexer.Tensors(run, tag)]. *)
Definition self_multiplexer_Tensors (run tag : string)
  : Py (list TensorEvent) :=
  fun h =>
    match _multiplexer (self h) with
    | None => (Raise AttributeError, h)
    | Some mux =>
        match Tensors mux run tag with
        | Some tensor_events =>
            (Return tensor_events, log_call (CallTensors run tag) h)
        | None => (Raise KeyError, log_call (CallTensors run tag) h)
        end
    end.

(** [self._multiplexer.PluginRunToTagToContent(plugin_name)]. *)
Definition self_multiplexer_PluginRunToTagToContent (plugin_name : string)
  : Py (pydict (pydict string)) :=
  fun h =>
    match _multiplexer (self h) with
    | None => (Raise AttributeError, h)
    | Some mux =>
        (Return (PluginRunToTagToContent mux plugin_name),
         log_call (CallPluginRunToTagToContent plugin_name) h)
    end.

(** ** The plugin's methods *)

(** The dict built by [_process_tensor_event]. *)
Record CurveEntry : Type := {
  entry_wall_time : float;
  entry_step : Z;
  entry_precision : list float;
  entry_recall : list float
}.

Definition _process_tensor_event (event : TensorEvent) : outcome CurveEntry :=
  let data_array := make_ndarray (tensor_proto event) in
  match getitem data_array metadata.PRECISION_INDEX with
  | Raise e => Raise e
  | Return precision_row =>
      match getitem data_array metadata.RECALL_INDEX with
      | Raise e => Raise e
      | Return recall_row =>
          Return {| entry_wall_time := wall_time event;
                    entry_step := step event;
                    entry_precision := tolist precision_row;
                    entry_recall := tolist recall_row |}
      end
  end.

(** The message of the [ValueError] raised by [pr_curves_impl]:
    ['No PR curves could be fetched for run %r and tag %r' % (run, tag)]. *)
Definition no_curves_message (run tag : string) : string :=
  "No PR curves could be fetched for run " +:+ repr run
  +:+ " and tag " +:+ repr tag.

(** The [for run in runs] loop of [pr_curves_impl]. *)
Fixpoint pr_curves_loop (runs : list string) (tag : string)
    (response_mapping : gmap string (list CurveEntry))
  : Py (gmap string (list CurveEntry)) :=
  match runs with
  | [] => mret response_mapping
  | run :: rest =>
      tensor_events ←
        try_except_KeyError
          (self_multiplexer_Tensors run tag)
          (raise (ValueError (no_curves_message run tag)));
      entries ←
        comprehension (fun e => lift (_process_tensor_event e)) tensor_events;
      pr_curves_loop rest tag (<[run := entries]> response_mapping)
  end.

Definition pr_curves_impl (runs : list string) (tag : string)
  : Py (gmap string (list CurveEntry)) :=
  pr_curves_loop runs tag ∅.

(** The dict comprehension of [tags_impl]. *)
Fixpoint tags_comprehension (all_runs : list (string * pydict string))
    (acc : gmap string (list string)) : gmap string (list string) :=
  match all_runs with
  | [] => acc
  | (run, tag_to_content) :: rest =>
      tags_comprehension rest (<[run := keys tag_to_content]> acc)
  end.

Definition tags_impl : Py (gmap string (list string)) :=
  all_runs ← self_multiplexer_PluginRunToTagToContent PLUGIN_NAME;
  mret (tags_comprehension (items all_runs) ∅).

(** The [for run, tag_to_content in all_runs.items()] loop of
    [available_steps_impl]; [next(six.iterkeys(tag_to_content))] is the
    first key of the dict in its iteration order. *)
Fixpoint available_steps_loop (all_runs : list (string * pydict string))
    (response : gmap string (list Z)) : Py (gmap string (list Z)) :=
  match all_runs with
  | [] => mret response
  | (run, tag_to_content) :: rest =>
      match tag_to_content with
      | [] => available_steps_loop rest response
      | (first_tag, _) :: _ =>
          tensor_events ← self_multiplexer_Tensors run first_tag;
          available_steps_loop rest
            (<[run := map step tensor_events]> response)
      end
  end.

Definition available_steps_impl : Py (gmap string (list Z)) :=
  all_runs ← self_multiplexer_PluginRunToTagToContent PLUGIN_NAME;
  available_steps_loop (items all_runs) ∅.

Definition is_active : Py bool :=
  mux ← self_multiplexer;
  match mux with
  | None => mret false
  | Some _ =>
      all_runs ← self_multiplexer_PluginRunToTagToContent PLUGIN_NAME;
      mret (any dict_truthy (itervalues all_runs))
  end.

(** ** The HTTP routes *)

(** What a route hands to [http_util.Respond]. *)
Inductive Content : Type :=
  | Text (s : string)
  | JsonTags (m : gmap string (list string))
  | JsonSteps (m : gmap string (list Z))
  | JsonCurves (m : gmap string (list CurveEntry)).

(** A positional argument that is a string or an integer literal. *)
Inductive PyArg : Type :=
  | PyStr (s : string)
  | PyInt (z : Z).

(** [http_util.Respond(request, content, content_type, code)] lives
    outside the sources at hand; a response is represented by the
    arguments of the call that builds it.  [resp_code = None] stands for
    a call that passes no fourth argument. *)
Record Response : Type := {
  resp_request : Request;
  resp_content : Content;
  resp_content_type : PyArg;
  resp_code : option Z
}.

Definition Respond (request : Request) (content : Content)
    (content_type : PyArg) (code : option Z) : Response :=
  {| resp_request := request; resp_content := content;
     resp_content_type := content_type; resp_code := code |}.

Definition pr_curves_route (request : Request) : Py Response :=
  let runs := getlist (args request) "run" in
  match runs with
  | [] =>
      mret (Respond request
              (Text "No runs provided when fetching PR curve data")
              (PyInt 400) None)
  | _ :: _ =>
      let tag := get (args request) "tag" in
      if str_falsy tag then
        mret (Respond request
                (Text "No tag provided when fetching PR curve data")
                (PyInt 400) None)
      else
        try_except_ValueError
          (curves ← pr_curves_impl runs (default "" tag);
           mret (Respond request (JsonCurves curves)
                   (PyStr "application/json") None))
          (fun e =>
             mret (Respond request (Text (str_exn e)) (PyStr "text/plain")
                     (Some 400%Z)))
  end.

Definition tags_route (request : Request) : Py Response :=
  tags ← tags_impl;
  mret (Respond request (JsonTags tags) (PyStr "application/json") None).

Definition available_steps_route (request : Request) : Py Response :=
  steps ← available_steps_impl;
  mret (Respond request (JsonSteps steps) (PyStr "application/json") None).

Definition get_plugin_apps : list (string * (Request -> Py Response)) :=
  [("/tags", tags_route);
   ("/pr_curves", pr_curves_route);
   ("/available_steps", available_steps_route)].

(** ** Vocabulary of the statements *)

(** A plugin object holding a store, as [__init__] builds it from a
    context that has one. *)
Definition plugin_of (mux : EventMultiplexer) : PrCurvesPlugin :=
  {| _multiplexer := Some mux |}.

(** Running a method on a plugin object, starting with an empty call log. *)
Definition call_on {A} (plugin : PrCurvesPlugin) (method : Py A)
  : outcome A * heap :=
  method {| self := plugin; calls := [] |}.

(** The decoded payload of an event has a row at both reserved indices. *)
Definition has_curve_rows (event : TensorEvent) : Prop :=
  metadata.PRECISION_INDEX < length (make_ndarray (tensor_proto event))
  /\ metadata.RECALL_INDEX < length (make_ndarray (tensor_proto event)).

(** The call for the events of [run] under [tag]. *)
Definition tensors_call (tag run : string) : StoreCall := CallTensors run tag.

(** Whether the store answers a call (a lookup of an unknown pair is the
    only call it refuses). *)
Definition call_answered (mux : EventMultiplexer) (c : StoreCall) : bool :=
  match c with
  | CallTensors run tag =>
      match Tensors mux run tag with
      | Some _ => true
      | None => false
      end
  | CallPluginRunToTagToContent _ => true
  end.

(** In a chronological call log, every call but the last one was
    answered: nothing is asked of the store after a refusal. *)
Fixpoint no_call_after_failure (mux : EventMultiplexer)
    (log : list StoreCall) : bool :=
  match log with
  | [] => true
  | c :: rest =>
      match rest with
      | [] => true
      | _ :: _ => call_answered mux c && no_call_after_failure mux rest
      end
  end.

(** The tag sampled for a run by [available_steps_impl], if it has one,
    is known to the store. *)
Definition sampled_tag_known (mux : EventMultiplexer)
    (item : string * pydict string) : Prop :=
  match item with
  | (_, []) => True
  | (run, (first_tag, _) :: _) => is_Some (Tensors mux run first_tag)
  end.

(** The number of runs the store lists for the plugin. *)
Definition store_runs (plugin : PrCurvesPlugin) : nat :=
  match _multiplexer plugin with
  | Some mux => length (PluginRunToTagToContent mux PLUGIN_NAME)
  | None => 0
  end.

(** A method is an idempotent query when, run twice in a row on the same
    plugin object, it returns the same outcome both times, leaves the
    object as it was, and each run appends the same [log] of at most
    [bound] store calls, none of them issued after a refusal. *)
Definition idempotent_query {A} (plugin : PrCurvesPlugin) (method : Py A)
    (bound : nat) : Prop :=
  forall cs : list StoreCall,
    let first := method {| self := plugin; calls := cs |} in
    let second := method (snd first) in
    fst second = fst first
    /\ self (snd first) = plugin
    /\ self (snd second) = plugin
    /\ exists log : list StoreCall,
         calls (snd first) = cs ++ log
         /\ calls (snd second) = (cs ++ log) ++ log
         /\ length log <= bound
         /\ (forall mux, _multiplexer plugin = Some mux ->
             no_call_after_failure mux log = true).

End Plugin.

(** ** A small store used to exercise the statements *)

Module Sample.

Definition externals : Externals :=
  {| PLUGIN_NAME := "pr_curves";
     repr := fun s => "'" +:+ s +:+ "'";
     TensorProto := ndarray;
     make_ndarray := fun proto => proto |}.

Definition zero : float := S754_zero false.
Definition half : float := S754_finite false 1 (-1).
Definition one : float := S754_finite false 1 0.

Definition event (t : float) (s : Z) (payload : ndarray)
  : @TensorEvent externals :=
  @Build_TensorEvent externals t s payload.

Definition blue_events : list (@TensorEvent externals) :=
  [event zero 0 [[half; one]; [one; zero]];
   event half 1 [[half; half]; [one; half]];
   event one 2 [[one; one]; [half; zero]]].

(** One run with a single tag and three events, and one run without any
    tag of the plugin. *)
Definition store_with (description : string) : @EventMultiplexer externals :=
  @Build_EventMultiplexer externals
    (fun run tag =>
       if (String.eqb run "colors" && String.eqb tag "blue/pr_curves")%bool
       then Some blue_events else None)
    (fun plugin_name =>
       if String.eqb plugin_name "pr_curves"
       then [("colors", [("blue/pr_curves", description)]); ("idle", [])]
       else []).

Definition store : @EventMultiplexer externals :=
  store_with "classifying blue".

Definition empty_store : @EventMultiplexer externals :=
  @Build_EventMultiplexer externals (fun _ _ => None) (fun _ => []).

Definition no_parameters : Request := {| args := [] |}.
Definition only_tag : Request := {| args := [("tag", "blue/pr_curves")] |}.
Definition only_run : Request := {| args := [("run", "colors")] |}.
Definition unknown_tag : Request :=
  {| args := [("run", "colors"); ("tag", "missing")] |}.
Definition run_and_tag : Request :=
  {| args := [("run", "colors"); ("tag", "blue/pr_curves")] |}.
Definition empty_tag : Request :=
  {| args := [("run", "colors"); ("tag", "")] |}.
Definition ragged_request : Request :=
  {| args := [("run", "ragged"); ("tag", "blue/pr_curves")] |}.
Definition second_run_unknown : Request :=
  {| args := [("run", "colors"); ("run", "missing");
              ("tag", "blue/pr_curves")] |}.

(** A store with a second run, ["ragged"], whose only event carries a
    payload of a single row. *)
Definition ragged_events : list (@TensorEvent externals) :=
  [event zero 0 [[half; one]]].

Definition ragged_store : @EventMultiplexer externals :=
  @Build_EventMultiplexer externals
    (fun run tag =>
       if String.eqb run "ragged" then Some ragged_events
       else Tensors store run tag)
    (fun plugin_name =>
       if String.eqb plugin_name "pr_curves"
       then [("colors", [("blue/pr_curves", "classifying blue")]);
             ("ragged", [("blue/pr_curves", "classifying blue")])]
       else []).

(** A store that lists a tag for which it holds no events. *)
Definition stale_store : @EventMultiplexer externals :=
  @Build_EventMultiplexer externals
    (Tensors store)
    (fun plugin_name =>
       if String.eqb plugin_name "pr_curves"
       then [("colors", [("red/pr_curves", "classifying red");
                         ("blue/pr_curves", "classifying blue")])]
       else []).

End Sample.

(** * Properties of the embedded methods *)

Section PluginTheory.

Context `{Externals}.

Implicit Types (mux : EventMultiplexer) (plugin : PrCurvesPlugin).
Implicit Types (cs log : list StoreCall) (run tag : string).
Implicit Types (runs : list string) (event : TensorEvent).

(** ** The conversion of one event *)

Lemma process_tensor_event_Return event c :
  _process_tensor_event event = Return c <->
  entry_wall_time c = wall_time event
  /\ entry_step c = step event
  /\ make_ndarray (tensor_proto event) !! metadata.PRECISION_INDEX
     = Some (entry_precision c)
  /\ make_ndarray (tensor_proto event) !! metadata.RECALL_INDEX
     = Some (entry_recall c).
Proof.
  unfold _process_tensor_event, getitem, tolist.
  destruct (make_ndarray (tensor_proto event) !! metadata.PRECISION_INDEX)
    as [p|]; [|split; [discriminate | intros (_ & _ & ? & _); discriminate]].
  destruct (make_ndarray (tensor_proto event) !! metadata.RECALL_INDEX)
    as [r|]; [|split; [discriminate | intros (_ & _ & _ & ?); discriminate]].
  split.
  - intros [= <-]. simpl. auto.
  - destruct c as [w s pc rc]. simpl.
    intros (-> & -> & [= ->] & [= ->]). reflexivity.
Qed.

Lemma has_curve_rows_process event :
  has_curve_rows event -> exists c, _process_tensor_event event = Return c.
Proof.
  intros [Hp Hr].
  apply lookup_lt_is_Some_2 in Hp as [p Hp].
  apply lookup_lt_is_Some_2 in Hr as [r Hr].
  exists {| entry_wall_time := wall_time event; entry_step := step event;
            entry_precision := p; entry_recall := r |}.
  apply process_tensor_event_Return. simpl. auto.
Qed.

Lemma process_has_curve_rows event c :
  _process_tensor_event event = Return c -> has_curve_rows event.
Proof.
  intros (_ & _ & Hp & Hr)%process_tensor_event_Return.
  split; eapply lookup_lt_Some; eassumption.
Qed.

(** ** Comprehensions over a body without effects *)

Lemma comprehension_lift {A B} (f : A -> outcome B) (xs : list A) :
  exists o : outcome (list B),
    (forall h : heap, comprehension (fun x => lift (f x)) xs h = (o, h))
    /\ (forall ys, o = Return ys -> Forall2 (fun x y => f x = Return y) xs ys)
    /\ (Forall (fun x => exists y, f x = Return y) xs ->
        exists ys, o = Return ys).
Proof.
  induction xs as [|x xs (o & Hrun & Hinv & Hok)].
  - exists (Return []). repeat split.
    + intros ys [= <-]. constructor.
    + intros _. eauto.
  - destruct (f x) as [y|e] eqn:Hx.
    + destruct o as [ys|e].
      * exists (Return (y :: ys)). repeat split.
        -- intros h. simpl. unfold mbind, Py_bind, lift.
           rewrite Hx, Hrun. reflexivity.
        -- intros ys' [= <-]. constructor; auto.
        -- intros _. eauto.
      * exists (Raise e). repeat split.
        -- intros h. simpl. unfold mbind, Py_bind, lift.
           rewrite Hx, Hrun. reflexivity.
        -- discriminate.
        -- intros Hall. apply Forall_cons in Hall as [_ Hall].
           destruct (Hok Hall) as [ys Hys]. discriminate.
    + exists (Raise e). repeat split.
      * intros h. simpl. unfold mbind, Py_bind, lift.
        rewrite Hx. reflexivity.
      * discriminate.
      * intros Hall. apply Forall_cons in Hall as [[y Hy] _]. congruence.
Qed.

(** ** One iteration of the loop of [pr_curves_impl] *)

Lemma pr_curves_loop_cons_missing mux run runs tag acc cs :
  Tensors mux run tag = None ->
  pr_curves_loop (run :: runs) tag acc
    {| self := plugin_of mux; calls := cs |}
  = (Raise (ValueError (no_curves_message run tag)),
     {| self := plugin_of mux; calls := cs ++ [CallTensors run tag] |}).
Proof.
  intros Hmiss. simpl.
  unfold mbind, Py_bind, try_except_KeyError, self_multiplexer_Tensors.
  simpl. rewrite Hmiss. reflexivity.
Qed.

Lemma pr_curves_loop_cons_found mux run runs tag acc cs events o :
  Tensors mux run tag = Some events ->
  (forall h, comprehension (fun e => lift (_process_tensor_event e)) events h
             = (o, h)) ->
  pr_curves_loop (run :: runs) tag acc
    {| self := plugin_of mux; calls := cs |}
  = match o with
    | Return entries =>
        pr_curves_loop runs tag (<[run := entries]> acc)
          {| self := plugin_of mux; calls := cs ++ [CallTensors run tag] |}
    | Raise e =>
        (Raise e,
         {| self := plugin_of mux; calls := cs ++ [CallTensors run tag] |})
    end.
Proof.
  intros Hfound Hcomp. simpl.
  unfold mbind, Py_bind, try_except_KeyError, self_multiplexer_Tensors.
  simpl. rewrite Hfound. unfold log_call. simpl. rewrite Hcomp.
  destruct o; reflexivity.
Qed.

Lemma pr_curves_loop_no_store run runs tag acc cs :
  pr_curves_loop (run :: runs) tag acc
    {| self := {| _multiplexer := None |}; calls := cs |}
  = (Raise AttributeError,
     {| self := {| _multiplexer := None |}; calls := cs |}).
Proof. reflexivity. Qed.

(** ** The loop of [pr_curves_impl] as a whole *)

Lemma process_all_unique (events : list TensorEvent)
    (entries entries' : list CurveEntry) :
  Forall2 (fun e c => _process_tensor_event e = Return c) events entries ->
  Forall2 (fun e c => _process_tensor_event e = Return c) events entries' ->
  entries = entries'.
Proof.
  intros Hfst. revert entries'.
  induction Hfst as [|e c events entries Hc _ IH]; intros entries' Hsnd.
  - inversion Hsnd. reflexivity.
  - inversion Hsnd as [|? c' ? rest Hc' Hrest]; subst.
    f_equal; [congruence | apply IH, Hrest].
Qed.

Lemma pr_curves_loop_success mux tag runs :
  forall acc : gmap string (list CurveEntry),
    Forall (fun run => exists events, Tensors mux run tag = Some events
                       /\ Forall has_curve_rows events) runs ->
    exists m : gmap string (list CurveEntry),
      (forall cs,
          pr_curves_loop runs tag acc {| self := plugin_of mux; calls := cs |}
          = (Return m,
             {| self := plugin_of mux;
                calls := cs ++ map (tensors_call tag) runs |}))
      /\ dom m = dom acc ∪ list_to_set runs
      /\ (forall run, run ∈ runs ->
            exists events entries,
              Tensors mux run tag = Some events
              /\ m !! run = Some entries
              /\ Forall2 (fun e c => _process_tensor_event e = Return c)
                   events entries)
      /\ (forall run, run ∉ runs -> m !! run = acc !! run).
Proof.
  induction runs as [|run runs IH]; intros acc Hall.
  - exists acc. split; [|split; [|split]].
    + intros cs. simpl. rewrite app_nil_r. reflexivity.
    + simpl. rewrite (right_id_L ∅ (∪)). reflexivity.
    + intros run Hin. inversion Hin.
    + reflexivity.
  - apply Forall_cons in Hall as [(events & Hfound & Hrows) Hall].
    destruct (comprehension_lift _process_tensor_event events)
      as (o & Hcomp & Hinv & Hok).
    destruct Hok as [entries ->].
    { eapply Forall_impl; [exact Hrows|].
      intros e He. apply has_curve_rows_process, He. }
    destruct (IH (<[run := entries]> acc) Hall)
      as (m & Hrun & Hdom & Hin & Hout).
    exists m. split; [|split; [|split]].
    + intros cs.
      rewrite (pr_curves_loop_cons_found _ _ _ _ _ _ _ _ Hfound Hcomp).
      rewrite Hrun, <- app_assoc. reflexivity.
    + rewrite Hdom, dom_insert_L. simpl.
      rewrite (comm_L (∪) {[run]} (dom acc)), <- (assoc_L (∪)). reflexivity.
    + intros run' Hin'. destruct (decide (run' ∈ runs)) as [Hlater|Hlast].
      * apply Hin, Hlater.
      * apply elem_of_cons in Hin' as [->|Hlater]; [|contradiction].
        exists events, entries. split; [assumption|]. split.
        -- rewrite Hout by assumption. apply lookup_insert_eq.
        -- apply Hinv. reflexivity.
    + intros run' Hnot. apply not_elem_of_cons in Hnot as [Hne Hnot].
      rewrite Hout by assumption. apply lookup_insert_ne. congruence.
Qed.

Lemma first_refused_split mux tag runs :
  Exists (fun run => Tensors mux run tag = None) runs ->
  exists pre run post,
    runs = pre ++ run :: post
    /\ Forall (fun r => is_Some (Tensors mux r tag)) pre
    /\ Tensors mux run tag = None.
Proof.
  induction runs as [|run runs IH]; intros Hmiss.
  - inversion Hmiss.
  - destruct (Tensors mux run tag) as [events|] eqn:Hlookup.
    + apply Exists_cons in Hmiss as [Hhead|Hmiss]; [congruence|].
      destruct (IH Hmiss) as (pre & run0 & post & -> & Hpre & Hnone).
      exists (run :: pre), run0, post. split; [reflexivity|].
      split; [constructor; [rewrite Hlookup; eauto | assumption]|].
      assumption.
    + exists [], run, runs. split; [reflexivity|].
      split; [constructor | assumption].
Qed.

Lemma pr_curves_loop_first_refused mux tag pre run post :
  forall (acc : gmap string (list CurveEntry)) cs,
    Forall (fun r => exists events, Tensors mux r tag = Some events
                     /\ Forall has_curve_rows events) pre ->
    Tensors mux run tag = None ->
    pr_curves_loop (pre ++ run :: post) tag acc
      {| self := plugin_of mux; calls := cs |}
    = (Raise (ValueError ("No PR curves could be fetched for run "
                          +:+ repr run +:+ " and tag " +:+ repr tag)),
       {| self := plugin_of mux;
          calls := cs ++ map (tensors_call tag) (pre ++ [run]) |}).
Proof.
  induction pre as [|r pre IH]; intros acc cs Hpre Hnone.
  - apply pr_curves_loop_cons_missing, Hnone.
  - apply Forall_cons in Hpre as [(events & Hfound & Hrows) Hpre].
    destruct (comprehension_lift _process_tensor_event events)
      as (o & Hcomp & _ & Hok).
    destruct Hok as [entries ->].
    { eapply Forall_impl; [exact Hrows|].
      intros e He. apply has_curve_rows_process, He. }
    rewrite <- !app_comm_cons.
    rewrite (pr_curves_loop_cons_found _ _ _ _ _ _ _ _ Hfound Hcomp).
    rewrite (IH _ _ Hpre Hnone), <- app_assoc. reflexivity.
Qed.

Lemma found_and_well_formed mux tag (pre : list string) :
  Forall (fun r => is_Some (Tensors mux r tag)) pre ->
  Forall (fun r => forall events, Tensors mux r tag = Some events ->
                   Forall has_curve_rows events) pre ->
  Forall (fun r => exists events, Tensors mux r tag = Some events
                   /\ Forall has_curve_rows events) pre.
Proof.
  rewrite !Forall_forall. intros Hfound Hrows r Hin.
  destruct (Hfound r Hin) as [events Hevents].
  exists events. split; [assumption|]. apply (Hrows r Hin), Hevents.
Qed.

Lemma pr_curves_loop_never_partial mux tag runs :
  forall (acc : gmap string (list CurveEntry)) cs,
    Exists (fun run => Tensors mux run tag = None) runs ->
    exists e h,
      pr_curves_loop runs tag acc {| self := plugin_of mux; calls := cs |}
      = (Raise e, h).
Proof.
  induction runs as [|run runs IH]; intros acc cs Hmiss.
  - inversion Hmiss.
  - destruct (Tensors mux run tag) as [events|] eqn:Hlookup.
    + apply Exists_cons in Hmiss as [Hhead|Hmiss]; [congruence|].
      destruct (comprehension_lift _process_tensor_event events)
        as (o & Hcomp & _).
      rewrite (pr_curves_loop_cons_found _ _ _ _ _ _ _ _ Hlookup Hcomp).
      destruct o as [entries|e]; [apply IH, Hmiss | eauto].
    + rewrite (pr_curves_loop_cons_missing _ _ _ _ _ _ Hlookup). eauto.
Qed.

(** C2. If the store refuses the lookup of any requested (run, tag) pair,
    [pr_curves_impl] raises instead of returning a mapping, whatever was
    processed before.  The request has a first refused run; the payloads
    of the runs before it being well formed, what is raised is the
    [ValueError] whose message is ['No PR curves could be fetched for run
    %r and tag %r'] filled in with that run and the tag. *)
Theorem C2_lookup_failure_fails_whole_call mux runs tag :
  Exists (fun run => Tensors mux run tag = None) runs ->
  (exists e,
      fst (call_on (plugin_of mux) (pr_curves_impl runs tag)) = Raise e)
  /\ exists pre run post,
       runs = pre ++ run :: post
       /\ Forall (fun r => is_Some (Tensors mux r tag)) pre
       /\ Tensors mux run tag = None
       /\ (Forall (fun r => forall events, Tensors mux r tag = Some events ->
                            Forall has_curve_rows events) pre ->
           fst (call_on (plugin_of mux) (pr_curves_impl runs tag))
           = Raise (ValueError ("No PR curves could be fetched for run "
                                +:+ repr run +:+ " and tag " +:+ repr tag))).
Proof.
  intros Hmiss. unfold call_on, pr_curves_impl. split.
  - destruct (pr_curves_loop_never_partial mux tag runs ∅ [] Hmiss)
      as (e & h & ->). eauto.
  - destruct (first_refused_split mux tag runs Hmiss)
      as (pre & run & post & -> & Hpre & Hnone).
    exists pre, run, post. split; [reflexivity|]. split; [assumption|].
    split; [assumption|]. intros Hrows.
    rewrite (pr_curves_loop_first_refused mux tag pre run post ∅ []
               (found_and_well_formed mux tag pre Hpre Hrows) Hnone).
    reflexivity.
Qed.

(** C4. When every requested lookup succeeds on well-formed payloads,
    the mapping returned by [pr_curves_impl] holds, for each requested
    run, one entry per event of the store, in the store's order; the
    entry copies [wall_time] and [step], its precision is the payload row
    at the reserved precision index (row 0) and its recall the row at the
    reserved recall index (row 1), element by element. *)
Theorem C4_events_become_curve_entries mux runs tag :
  Forall (fun run => exists events, Tensors mux run tag = Some events
                     /\ Forall has_curve_rows events) runs ->
  exists m : gmap string (list CurveEntry),
    fst (call_on (plugin_of mux) (pr_curves_impl runs tag)) = Return m
    /\ forall run, run ∈ runs ->
         exists events entries,
           Tensors mux run tag = Some events
           /\ m !! run = Some entries
           /\ length entries = length events
           /\ forall i event, events !! i = Some event ->
                exists c,
                  entries !! i = Some c
                  /\ _process_tensor_event event = Return c
                  /\ entry_wall_time c = wall_time event
                  /\ entry_step c = step event
                  /\ make_ndarray (tensor_proto event)
                       !! metadata.PRECISION_INDEX = Some (entry_precision c)
                  /\ make_ndarray (tensor_proto event)
                       !! metadata.RECALL_INDEX = Some (entry_recall c)
                  /\ (forall j,
                        entry_precision c !! j
                        = make_ndarray (tensor_proto event) !! 0
                            ≫= (fun row => row !! j))
                  /\ (forall j,
                        entry_recall c !! j
                        = make_ndarray (tensor_proto event) !! 1
                            ≫= (fun row => row !! j)).
Proof.
  intros Hall.
  destruct (pr_curves_loop_success mux tag runs ∅ Hall)
    as (m & Hrun & _ & Hin & _).
  exists m. unfold call_on, pr_curves_impl. rewrite Hrun.
  split; [reflexivity|].
  intros run Hrun_in.
  destruct (Hin run Hrun_in) as (events & entries & Hfound & Hm & Hconv).
  exists events, entries. split; [assumption|]. split; [assumption|].
  split; [symmetry; eapply Forall2_length, Hconv|].
  intros i event Hi.
  destruct (Forall2_lookup_l _ _ _ _ _ Hconv Hi) as (c & Hc & Hproc).
  exists c. split; [assumption|]. split; [assumption|].
  apply process_tensor_event_Return in Hproc as (Hw & Hs & Hp & Hr).
  repeat split; try assumption.
  - intros j. change 0 with metadata.PRECISION_INDEX. rewrite Hp. reflexivity.
  - intros j. change 1 with metadata.RECALL_INDEX. rewrite Hr. reflexivity.
Qed.

(** C10. When every requested lookup succeeds on well-formed payloads,
    the keys of the mapping returned by [pr_curves_impl] are exactly the
    distinct requested run names: one key per distinct name, none that was
    not requested; and the value written at any occurrence of a run name
    is the value found under that name in the end. *)
Theorem C10_keys_are_the_distinct_runs mux runs tag :
  Forall (fun run => exists events, Tensors mux run tag = Some events
                     /\ Forall has_curve_rows events) runs ->
  exists m : gmap string (list CurveEntry),
    fst (call_on (plugin_of mux) (pr_curves_impl runs tag)) = Return m
    /\ dom m = list_to_set runs
    /\ size m = length (remove_dups runs)
    /\ (forall run, is_Some (m !! run) <-> run ∈ runs)
    /\ (forall pre run post, runs = pre ++ run :: post ->
          exists m' : gmap string (list CurveEntry),
            fst (call_on (plugin_of mux) (pr_curves_impl (pre ++ [run]) tag))
            = Return m'
            /\ is_Some (m' !! run)
            /\ m' !! run = m !! run).
Proof.
  intros Hall.
  destruct (pr_curves_loop_success mux tag runs ∅ Hall)
    as (m & Hrun & Hdom & Hin & _).
  assert (Hkeys : dom m = list_to_set runs).
  { rewrite Hdom, dom_empty_L. apply (left_id_L ∅ (∪)). }
  exists m. unfold call_on, pr_curves_impl. rewrite Hrun.
  split; [reflexivity|]. split; [assumption|]. split; [|split].
  - rewrite <- size_dom, Hkeys.
    rewrite <- (size_list_to_set (C := gset string) (remove_dups runs))
      by apply NoDup_remove_dups.
    f_equal. apply set_eq. intros run.
    rewrite !elem_of_list_to_set, elem_of_remove_dups. reflexivity.
  - intros run. rewrite <- elem_of_dom, Hkeys, elem_of_list_to_set.
    reflexivity.
  - intros pre run post ->.
    assert (Hprefix : Forall (fun run => exists events,
                         Tensors mux run tag = Some events
                         /\ Forall has_curve_rows events) (pre ++ [run])).
    { apply Forall_app in Hall as [Hpre Hpost].
      apply Forall_cons in Hpost as [Hhere _].
      apply Forall_app. split; [assumption | constructor; [assumption|constructor]]. }
    destruct (pr_curves_loop_success mux tag (pre ++ [run]) ∅ Hprefix)
      as (m' & Hrun' & _ & Hin' & _).
    exists m'. rewrite Hrun'. split; [reflexivity|].
    destruct (Hin' run) as (events' & entries' & Hfound' & Hm' & Hconv').
    { apply elem_of_app. right. apply list_elem_of_singleton. reflexivity. }
    destruct (Hin run) as (events & entries & Hfound & Hm & Hconv).
    { apply elem_of_app. right. apply elem_of_cons. left. reflexivity. }
    rewrite Hm', Hm. split; [eauto|].
    rewrite Hfound in Hfound'. injection Hfound' as <-.
    f_equal. eapply process_all_unique; eassumption.
Qed.

(** ** The loops over the runs of the store *)

Lemma tags_comprehension_spec (all_runs : list (string * pydict string)) :
  forall acc : gmap string (list string),
    (forall run, run ∉ keys all_runs ->
                 tags_comprehension all_runs acc !! run = acc !! run)
    /\ (NoDup (keys all_runs) ->
        forall run tag_to_content, (run, tag_to_content) ∈ all_runs ->
          tags_comprehension all_runs acc !! run = Some (keys tag_to_content))
    /\ dom (tags_comprehension all_runs acc)
       = dom acc ∪ list_to_set (keys all_runs).
Proof.
  induction all_runs as [|[run ttc] rest IH]; intros acc.
  - split; [reflexivity|]. split.
    + intros _ run ttc Hin. inversion Hin.
    + simpl. rewrite (right_id_L ∅ (∪)). reflexivity.
  - destruct (IH (<[run := keys ttc]> acc)) as (Hout & Hin & Hdom).
    simpl. split; [|split].
    + intros run' Hnot. apply not_elem_of_cons in Hnot as [Hne Hnot].
      rewrite Hout by assumption. apply lookup_insert_ne. congruence.
    + intros Hnodup run' ttc' Hin'.
      apply NoDup_cons in Hnodup as [Hfresh Hnodup].
      apply elem_of_cons in Hin' as [[= -> ->]|Hlater].
      * rewrite Hout by assumption. apply lookup_insert_eq.
      * apply Hin; assumption.
    + rewrite Hdom, dom_insert_L.
      rewrite (comm_L (∪) {[run]} (dom acc)), <- (assoc_L (∪)). reflexivity.
Qed.

Lemma available_steps_loop_found mux run first_tag content more rest acc cs
    events :
  Tensors mux run first_tag = Some events ->
  available_steps_loop ((run, (first_tag, content) :: more) :: rest) acc
    {| self := plugin_of mux; calls := cs |}
  = available_steps_loop rest (<[run := map step events]> acc)
      {| self := plugin_of mux; calls := cs ++ [CallTensors run first_tag] |}.
Proof.
  intros Hfound. simpl.
  unfold mbind, Py_bind, self_multiplexer_Tensors. simpl.
  rewrite Hfound. reflexivity.
Qed.

Lemma available_steps_loop_missing mux run first_tag content more rest acc cs :
  Tensors mux run first_tag = None ->
  available_steps_loop ((run, (first_tag, content) :: more) :: rest) acc
    {| self := plugin_of mux; calls := cs |}
  = (Raise KeyError,
     {| self := plugin_of mux; calls := cs ++ [CallTensors run first_tag] |}).
Proof.
  intros Hmiss. simpl.
  unfold mbind, Py_bind, self_multiplexer_Tensors. simpl.
  rewrite Hmiss. reflexivity.
Qed.

Lemma available_steps_loop_success mux (all_runs : list (string * pydict string)) :
  forall acc : gmap string (list Z),
    Forall (sampled_tag_known mux) all_runs ->
    exists (response : gmap string (list Z)) log,
      (forall cs,
          available_steps_loop all_runs acc
            {| self := plugin_of mux; calls := cs |}
          = (Return response, {| self := plugin_of mux; calls := cs ++ log |}))
      /\ (forall run, run ∉ keys all_runs -> response !! run = acc !! run)
      /\ (NoDup (keys all_runs) ->
          forall run tag_to_content, (run, tag_to_content) ∈ all_runs ->
            match tag_to_content with
            | [] => response !! run = acc !! run
            | (first_tag, _) :: _ =>
                exists events,
                  Tensors mux run first_tag = Some events
                  /\ response !! run = Some (map step events)
            end).
Proof.
  induction all_runs as [|[run ttc] rest IH]; intros acc Hknown.
  - exists acc, []. split; [|split].
    + intros cs. simpl. rewrite app_nil_r. reflexivity.
    + reflexivity.
    + intros _ run ttc Hin. inversion Hin.
  - apply Forall_cons in Hknown as [Hhere Hknown].
    destruct ttc as [|[first_tag content] more].
    + destruct (IH acc Hknown) as (response & log & Hrun & Hout & Hin).
      exists response, log. split; [exact Hrun|]. split.
      * intros run' Hnot. apply not_elem_of_cons in Hnot as [_ Hnot].
        apply Hout, Hnot.
      * intros Hnodup run' ttc' Hin'.
        apply NoDup_cons in Hnodup as [Hfresh Hnodup]. simpl in Hfresh.
        apply elem_of_cons in Hin' as [[= -> ->]|Hlater].
        -- apply Hout, Hfresh.
        -- apply Hin; assumption.
    + destruct Hhere as [events Hfound].
      destruct (IH (<[run := map step events]> acc) Hknown)
        as (response & log & Hrun & Hout & Hin).
      exists response, (CallTensors run first_tag :: log).
      split; [|split].
      * intros cs. rewrite (available_steps_loop_found _ _ _ _ _ _ _ _ _ Hfound).
        rewrite Hrun, <- app_assoc. reflexivity.
      * intros run' Hnot. apply not_elem_of_cons in Hnot as [Hne Hnot].
        simpl in Hne.
        rewrite Hout by assumption. apply lookup_insert_ne. congruence.
      * intros Hnodup run' ttc' Hin'.
        apply NoDup_cons in Hnodup as [Hfresh Hnodup]. simpl in Hfresh.
        apply elem_of_cons in Hin' as [[= -> ->]|Hlater].
        -- exists events. split; [assumption|].
           rewrite Hout by assumption. apply lookup_insert_eq.
        -- specialize (Hin Hnodup run' ttc' Hlater).
           destruct ttc' as [|[t c] more']; [|exact Hin].
           rewrite Hin. apply lookup_insert_ne. intros ->.
           apply Hfresh. apply list_elem_of_fmap.
           exists (run', []). split; [reflexivity | assumption].
Qed.

Lemma any_dict_truthy (all_runs : pydict (pydict string)) :
  any dict_truthy (itervalues all_runs) = true <->
  exists run tag_to_content,
    (run, tag_to_content) ∈ items all_runs /\ tag_to_content <> [].
Proof.
  unfold any, itervalues, items.
  induction all_runs as [|[run ttc] rest IH]; simpl.
  - split; [discriminate|]. intros (run & ttc & Hin & _). inversion Hin.
  - rewrite orb_true_iff, IH. split.
    + intros [Hhere|(run' & ttc' & Hin & Hne)].
      * exists run, ttc. split; [left|]. destruct ttc; [discriminate|].
        discriminate.
      * exists run', ttc'. split; [right|]; assumption.
    + intros (run' & ttc' & Hin & Hne).
      apply elem_of_cons in Hin as [[= -> ->]|Hin].
      * left. destruct ttc; [contradiction | reflexivity].
      * right. eauto.
Qed.

(** C5. The store listing each run once and answering the lookup of every
    sampled tag, [available_steps_impl] returns a mapping that has no
    key for a run whose tag mapping is empty and, for a run with at least
    one tag, holds the steps of the events of the first of its tags: one
    step per event, in the order of the store.  No other key occurs. *)
Theorem C5_available_steps mux :
  NoDup (keys (PluginRunToTagToContent mux PLUGIN_NAME)) ->
  Forall (sampled_tag_known mux) (PluginRunToTagToContent mux PLUGIN_NAME) ->
  exists response : gmap string (list Z),
    fst (call_on (plugin_of mux) available_steps_impl) = Return response
    /\ (forall run,
          (run, []) ∈ items (PluginRunToTagToContent mux PLUGIN_NAME) ->
          response !! run = None)
    /\ (forall run tag_to_content,
          (run, tag_to_content)
            ∈ items (PluginRunToTagToContent mux PLUGIN_NAME) ->
          tag_to_content <> [] ->
          exists sampled_tag events steps,
            head (keys tag_to_content) = Some sampled_tag
            /\ Tensors mux run sampled_tag = Some events
            /\ response !! run = Some steps
            /\ length steps = length events
            /\ forall i, steps !! i = step <$> events !! i)
    /\ (forall run, is_Some (response !! run) ->
          exists tag_to_content,
            (run, tag_to_content)
              ∈ items (PluginRunToTagToContent mux PLUGIN_NAME)
            /\ tag_to_content <> []).
Proof.
  intros Hnodup Hknown.
  destruct (available_steps_loop_success mux _ ∅ Hknown)
    as (response & log & Hrun & Hout & Hin).
  specialize (Hin Hnodup).
  exists response. split; [|split; [|split]].
  - unfold call_on, available_steps_impl, mbind, Py_bind,
      self_multiplexer_PluginRunToTagToContent, log_call, items. simpl.
    rewrite Hrun. reflexivity.
  - intros run Hrun_in. rewrite (Hin run [] Hrun_in). apply lookup_empty.
  - intros run ttc Hrun_in Hne. specialize (Hin run ttc Hrun_in).
    destruct ttc as [|[t c] more]; [contradiction|].
    destruct Hin as (events & Hfound & Hsteps).
    exists t, events, (map step events).
    split; [reflexivity|]. split; [assumption|]. split; [assumption|].
    split; [apply length_map|]. intros i. apply list_lookup_fmap.
  - intros run Hsome.
    destruct (decide (run ∈ keys (PluginRunToTagToContent mux PLUGIN_NAME)))
      as [Hkey|Hnot].
    + apply list_elem_of_fmap in Hkey as ([run' ttc] & -> & Hitem).
      exists ttc. split; [exact Hitem|]. intros ->. simpl in Hsome.
      rewrite (Hin _ [] Hitem), lookup_empty in Hsome.
      destruct Hsome as [? ?]. discriminate.
    + rewrite (Hout run Hnot), lookup_empty in Hsome.
      destruct Hsome as [? ?]. discriminate.
Qed.

(** C7. The store listing each run once, [tags_impl] returns a mapping
    whose keys are exactly the runs of the store, a run whose tag mapping
    is empty included (its value is then empty); it raises nothing, and for
    a store without runs it returns the empty mapping. *)
Theorem C7_tags_impl_keeps_every_run mux :
  NoDup (keys (PluginRunToTagToContent mux PLUGIN_NAME)) ->
  exists response : gmap string (list string),
    fst (call_on (plugin_of mux) tags_impl) = Return response
    /\ dom response = list_to_set (keys (PluginRunToTagToContent mux PLUGIN_NAME))
    /\ (forall run tag_to_content,
          (run, tag_to_content)
            ∈ items (PluginRunToTagToContent mux PLUGIN_NAME) ->
          response !! run = Some (keys tag_to_content))
    /\ (forall run,
          (run, []) ∈ items (PluginRunToTagToContent mux PLUGIN_NAME) ->
          response !! run = Some [])
    /\ (PluginRunToTagToContent mux PLUGIN_NAME = [] -> response = ∅).
Proof.
  intros Hnodup.
  destruct (tags_comprehension_spec (PluginRunToTagToContent mux PLUGIN_NAME) ∅)
    as (_ & Hin & Hdom).
  specialize (Hin Hnodup).
  exists (tags_comprehension (items (PluginRunToTagToContent mux PLUGIN_NAME)) ∅).
  split; [reflexivity|]. unfold items. split; [|split; [|split]].
  - rewrite Hdom, dom_empty_L. apply (left_id_L ∅ (∪)).
  - exact Hin.
  - intros run Hrun_in. apply (Hin run [] Hrun_in).
  - intros ->. reflexivity.
Qed.

(** C6. [is_active] always returns a boolean: [False] when the plugin
    holds no store, [False] when every run of the store has an empty tag
    mapping, and [True] exactly when the store lists a run with at least
    one tag.  The only call it can make on the store is the run-to-tags
    query; it never asks for tensors. *)
Theorem C6_is_active plugin :
  exists (active : bool) log,
    call_on plugin is_active
    = (Return active, {| self := plugin; calls := log |})
    /\ (_multiplexer plugin = None -> active = false)
    /\ (forall mux, _multiplexer plugin = Some mux ->
          Forall (fun item => snd item = [])
            (items (PluginRunToTagToContent mux PLUGIN_NAME)) ->
          active = false)
    /\ (active = true <->
        exists mux run tag_to_content,
          _multiplexer plugin = Some mux
          /\ (run, tag_to_content)
               ∈ items (PluginRunToTagToContent mux PLUGIN_NAME)
          /\ tag_to_content <> [])
    /\ (log = [] \/ log = [CallPluginRunToTagToContent PLUGIN_NAME])
    /\ (forall run tag, CallTensors run tag ∉ log).
Proof.
  destruct plugin as [[mux|]].
  - exists (any dict_truthy (itervalues (PluginRunToTagToContent mux PLUGIN_NAME))),
      [CallPluginRunToTagToContent PLUGIN_NAME].
    split; [reflexivity|]. split; [discriminate|]. split; [|split; [|split]].
    + intros mux' [= <-] Hempty.
      apply not_true_is_false. intros Hactive.
      apply any_dict_truthy in Hactive as (run & ttc & Hin & Hne).
      rewrite Forall_forall in Hempty. apply Hne, (Hempty _ Hin).
    + rewrite any_dict_truthy. split.
      * intros (run & ttc & Hin & Hne). exists mux, run, ttc. auto.
      * intros (mux' & run & ttc & [= <-] & Hin & Hne). eauto.
    + right. reflexivity.
    + intros run tag Hin. apply list_elem_of_singleton in Hin. discriminate.
  - exists false, []. split; [reflexivity|]. split; [reflexivity|].
    split; [reflexivity|]. split; [|split].
    + split; [discriminate|]. intros (mux & _ & _ & Hnone & _). discriminate.
    + left. reflexivity.
    + intros run tag Hin. inversion Hin.
Qed.

(** ** Every method is a query *)

Lemma no_call_after_failure_cons mux c log :
  call_answered mux c = true ->
  no_call_after_failure mux log = true ->
  no_call_after_failure mux (c :: log) = true.
Proof.
  intros Hc Hlog. destruct log as [|c' log]; [reflexivity|].
  change (call_answered mux c && no_call_after_failure mux (c' :: log) = true).
  rewrite Hc, Hlog. reflexivity.
Qed.

Lemma idempotent_query_intro {A} plugin (method : Py A) bound
    (o : outcome A) log :
  (forall cs, method {| self := plugin; calls := cs |}
              = (o, {| self := plugin; calls := cs ++ log |})) ->
  length log <= bound ->
  (forall mux, _multiplexer plugin = Some mux ->
               no_call_after_failure mux log = true) ->
  idempotent_query plugin method bound.
Proof.
  intros Hrun Hlen Hlog cs. simpl.
  rewrite Hrun. simpl. rewrite Hrun. simpl.
  split; [reflexivity|]. split; [reflexivity|]. split; [reflexivity|].
  exists log. auto.
Qed.

Lemma pr_curves_loop_frame mux tag runs :
  forall acc : gmap string (list CurveEntry),
    exists o log,
      (forall cs,
          pr_curves_loop runs tag acc {| self := plugin_of mux; calls := cs |}
          = (o, {| self := plugin_of mux; calls := cs ++ log |}))
      /\ length log <= length runs
      /\ no_call_after_failure mux log = true.
Proof.
  induction runs as [|run runs IH]; intros acc.
  - exists (Return acc), []. split; [|split; [|reflexivity]].
    + intros cs. simpl. rewrite app_nil_r. reflexivity.
    + reflexivity.
  - destruct (Tensors mux run tag) as [events|] eqn:Hlookup.
    + destruct (comprehension_lift _process_tensor_event events)
        as (o' & Hcomp & _).
      destruct o' as [entries|e].
      * destruct (IH (<[run := entries]> acc)) as (o & log & Hrun & Hlen & Hlog).
        exists o, (CallTensors run tag :: log). split; [|split].
        -- intros cs.
           rewrite (pr_curves_loop_cons_found _ _ _ _ _ _ _ _ Hlookup Hcomp).
           rewrite Hrun, <- app_assoc. reflexivity.
        -- simpl. lia.
        -- apply no_call_after_failure_cons; [|assumption].
           simpl. rewrite Hlookup. reflexivity.
      * exists (Raise e), [CallTensors run tag]. split; [|split].
        -- intros cs.
           rewrite (pr_curves_loop_cons_found _ _ _ _ _ _ _ _ Hlookup Hcomp).
           reflexivity.
        -- simpl. lia.
        -- reflexivity.
    + exists (Raise (ValueError (no_curves_message run tag))),
        [CallTensors run tag].
      split; [|split].
      * intros cs. apply pr_curves_loop_cons_missing, Hlookup.
      * simpl. lia.
      * reflexivity.
Qed.

Lemma available_steps_loop_frame mux (all_runs : list (string * pydict string)) :
  forall acc : gmap string (list Z),
    exists o log,
      (forall cs,
          available_steps_loop all_runs acc
            {| self := plugin_of mux; calls := cs |}
          = (o, {| self := plugin_of mux; calls := cs ++ log |}))
      /\ length log <= length all_runs
      /\ no_call_after_failure mux log = true.
Proof.
  induction all_runs as [|[run ttc] rest IH]; intros acc.
  - exists (Return acc), []. split; [|split; [|reflexivity]].
    + intros cs. simpl. rewrite app_nil_r. reflexivity.
    + reflexivity.
  - destruct ttc as [|[first_tag content] more].
    + destruct (IH acc) as (o & log & Hrun & Hlen & Hlog).
      exists o, log. split; [exact Hrun|]. split; [simpl; lia | assumption].
    + destruct (Tensors mux run first_tag) as [events|] eqn:Hlookup.
      * destruct (IH (<[run := map step events]> acc))
          as (o & log & Hrun & Hlen & Hlog).
        exists o, (CallTensors run first_tag :: log). split; [|split].
        -- intros cs.
           rewrite (available_steps_loop_found _ _ _ _ _ _ _ _ _ Hlookup).
           rewrite Hrun, <- app_assoc. reflexivity.
        -- simpl. lia.
        -- apply no_call_after_failure_cons; [|assumption].
           simpl. rewrite Hlookup. reflexivity.
      * exists (Raise KeyError), [CallTensors run first_tag].
        split; [|split].
        -- intros cs. apply available_steps_loop_missing, Hlookup.
        -- simpl. lia.
        -- reflexivity.
Qed.

(** C8. Each of [tags_impl], [available_steps_impl], [pr_curves_impl]
    and [is_active], run twice in a row on a plugin object, returns the
    same outcome both times and leaves the object as it was; a run asks
    the store at most once per lookup it needs (one run-to-tags query,
    one lookup per listed or requested run) and asks nothing more after
    a lookup was refused. *)
Theorem C8_methods_are_idempotent_queries plugin runs tag :
  idempotent_query plugin tags_impl 1
  /\ idempotent_query plugin available_steps_impl (S (store_runs plugin))
  /\ idempotent_query plugin (pr_curves_impl runs tag) (length runs)
  /\ idempotent_query plugin is_active 1.
Proof.
  destruct plugin as [[mux|]].
  - change {| _multiplexer := Some mux |} with (plugin_of mux).
    split; [|split; [|split]].
    + apply (idempotent_query_intro _ _ _
               (Return (tags_comprehension
                          (items (PluginRunToTagToContent mux PLUGIN_NAME)) ∅))
               [CallPluginRunToTagToContent PLUGIN_NAME]).
      * reflexivity.
      * simpl. lia.
      * reflexivity.
    + destruct (available_steps_loop_frame mux
                  (PluginRunToTagToContent mux PLUGIN_NAME) ∅)
        as (o & log & Hrun & Hlen & Hlog).
      apply (idempotent_query_intro _ _ _ o
               (CallPluginRunToTagToContent PLUGIN_NAME :: log)).
      * intros cs.
        unfold available_steps_impl, mbind, Py_bind,
          self_multiplexer_PluginRunToTagToContent, log_call, items. simpl.
        rewrite Hrun, <- app_assoc. reflexivity.
      * unfold store_runs. simpl. lia.
      * intros mux' [= <-].
        apply no_call_after_failure_cons; [reflexivity | assumption].
    + destruct (pr_curves_loop_frame mux tag runs ∅)
        as (o & log & Hrun & Hlen & Hlog).
      apply (idempotent_query_intro _ _ _ o log).
      * exact Hrun.
      * exact Hlen.
      * intros mux' [= <-]. exact Hlog.
    + apply (idempotent_query_intro _ _ _
               (Return (any dict_truthy
                          (itervalues (PluginRunToTagToContent mux PLUGIN_NAME))))
               [CallPluginRunToTagToContent PLUGIN_NAME]).
      * reflexivity.
      * simpl. lia.
      * reflexivity.
  - split; [|split; [|split]].
    + apply (idempotent_query_intro _ _ _ (Raise AttributeError) []).
      * intros cs. rewrite app_nil_r. reflexivity.
      * simpl. lia.
      * discriminate.
    + apply (idempotent_query_intro _ _ _ (Raise AttributeError) []).
      * intros cs. rewrite app_nil_r. reflexivity.
      * simpl. lia.
      * discriminate.
    + destruct runs as [|run runs].
      * apply (idempotent_query_intro _ _ _ (Return ∅) []).
        -- intros cs. rewrite app_nil_r. reflexivity.
        -- simpl. lia.
        -- discriminate.
      * apply (idempotent_query_intro _ _ _ (Raise AttributeError) []).
        -- intros cs. rewrite app_nil_r. reflexivity.
        -- simpl. lia.
        -- discriminate.
    + apply (idempotent_query_intro _ _ _ (Return false) []).
      * intros cs. rewrite app_nil_r. reflexivity.
      * simpl. lia.
      * discriminate.
Qed.

(** ** The [/pr_curves] route *)

Lemma pr_curves_route_validation plugin request :
  getlist (args request) "run" = []
  \/ str_falsy (get (args request) "tag") = true ->
  exists message,
    call_on plugin (pr_curves_route request)
    = (Return (Respond request (Text message) (PyInt 400) None),
       {| self := plugin; calls := [] |}).
Proof.
  unfold call_on, pr_curves_route.
  intros [Hruns|Htag].
  - rewrite Hruns. eauto.
  - destruct (getlist (args request) "run"); [eauto|].
    rewrite Htag. eauto.
Qed.

(** C9. In the [/pr_curves] route the runs are checked first: a request
    without any [run] is answered with the missing-runs message, whatever
    its [tag] (so also when both are absent), and the missing-tag message
    is only ever the answer to a request that supplied at least one run. *)
Theorem C9_runs_validated_before_tag plugin request :
  (getlist (args request) "run" = [] ->
   call_on plugin (pr_curves_route request)
   = (Return (Respond request
                (Text "No runs provided when fetching PR curve data")
                (PyInt 400) None),
      {| self := plugin; calls := [] |}))
  /\ (forall response h,
        call_on plugin (pr_curves_route request) = (Return response, h) ->
        resp_content response
        = Text "No tag provided when fetching PR curve data" ->
        getlist (args request) "run" <> []).
Proof.
  unfold call_on, pr_curves_route. split.
  - intros ->. reflexivity.
  - intros response h.
    destruct (getlist (args request) "run") as [|run runs]; [|discriminate].
    intros [= <- _]. discriminate.
Qed.

End PluginTheory.

(** * Further properties: outcomes, store calls and composition *)

Section MoreProperties.

Context `{Externals}.

Implicit Types (mux : EventMultiplexer) (plugin : PrCurvesPlugin).
Implicit Types (cs log : list StoreCall) (run tag : string).
Implicit Types (runs : list string) (event : TensorEvent).

(** ** Outcomes of the conversion and of [pr_curves_impl] *)

Lemma process_tensor_event_cases event :
  (has_curve_rows event /\ exists c, _process_tensor_event event = Return c)
  \/ (~ has_curve_rows event
      /\ _process_tensor_event event = Raise IndexError).
Proof.
  unfold has_curve_rows, _process_tensor_event, getitem.
  destruct (make_ndarray (tensor_proto event) !! metadata.PRECISION_INDEX)
    as [p|] eqn:Hp.
  - destruct (make_ndarray (tensor_proto event) !! metadata.RECALL_INDEX)
      as [r|] eqn:Hr.
    + left. apply lookup_lt_Some in Hp, Hr. eauto.
    + right. apply lookup_ge_None in Hr. split; [lia | reflexivity].
  - right. apply lookup_ge_None in Hp. split; [lia | reflexivity].
Qed.

(** X1. [_process_tensor_event] returns an entry exactly when the decoded
    payload has a row at both reserved indices; otherwise it raises
    [IndexError], and it raises nothing else. *)
Theorem process_tensor_event_outcome event :
  (has_curve_rows event /\ exists c, _process_tensor_event event = Return c)
  \/ (~ has_curve_rows event
      /\ _process_tensor_event event = Raise IndexError).
Proof. apply process_tensor_event_cases. Qed.

Lemma process_tensor_event_Raise event e :
  _process_tensor_event event = Raise e ->
  e = IndexError /\ ~ has_curve_rows event.
Proof.
  intros Hraise.
  destruct (process_tensor_event_cases event) as [[_ [c Hc]]|[Hrows Hidx]].
  - congruence.
  - split; [congruence | assumption].
Qed.

Lemma comprehension_lift_Raise {A B} (f : A -> outcome B) (xs : list A) e :
  forall h h' : heap,
    comprehension (fun x => lift (f x)) xs h = (Raise e, h') ->
    exists x, x ∈ xs /\ f x = Raise e.
Proof.
  induction xs as [|x xs IH]; intros h h'.
  - discriminate.
  - simpl. unfold mbind, Py_bind.
    change (lift (f x) h) with (f x, h). destruct (f x) as [y|e'] eqn:Hx.
    + destruct (comprehension (fun x => lift (f x)) xs h)
        as [[ys|e''] h''] eqn:Hrest.
      * discriminate.
      * intros [= <- <-]. destruct (IH _ _ Hrest) as (x' & Hin & Hx').
        exists x'. split; [right|]; assumption.
    + intros [= <- <-]. exists x. split; [left | assumption].
Qed.

Lemma process_all_has_curve_rows (events : list TensorEvent)
    (entries : list CurveEntry) :
  Forall2 (fun e c => _process_tensor_event e = Return c) events entries ->
  Forall has_curve_rows events.
Proof.
  induction 1 as [|e c events entries Hc _ IH]; constructor.
  - eapply process_has_curve_rows, Hc.
  - exact IH.
Qed.

Lemma pr_curves_loop_outcomes mux tag runs :
  forall (acc : gmap string (list CurveEntry)) cs,
    match fst (pr_curves_loop runs tag acc
                 {| self := plugin_of mux; calls := cs |}) with
    | Return _ =>
        Forall (fun run => exists events,
                  Tensors mux run tag = Some events
                  /\ Forall has_curve_rows events) runs
    | Raise (ValueError msg) =>
        exists run, run ∈ runs /\ Tensors mux run tag = None
                    /\ msg = no_curves_message run tag
    | Raise IndexError =>
        exists run events,
          run ∈ runs /\ Tensors mux run tag = Some events
          /\ Exists (fun e => ~ has_curve_rows e) events
    | Raise KeyError | Raise AttributeError => False
    end.
Proof.
  induction runs as [|run runs IH]; intros acc cs.
  - simpl. constructor.
  - destruct (Tensors mux run tag) as [events|] eqn:Hlookup.
    + destruct (comprehension_lift _process_tensor_event events)
        as (o & Hcomp & Hinv & _).
      rewrite (pr_curves_loop_cons_found _ _ _ _ _ _ _ _ Hlookup Hcomp).
      destruct o as [entries|e].
      * specialize (IH (<[run := entries]> acc) (cs ++ [CallTensors run tag])).
        destruct (fst (pr_curves_loop runs tag (<[run := entries]> acc)
                         {| self := plugin_of mux;
                            calls := cs ++ [CallTensors run tag] |}))
          as [m|[|msg| |]].
        -- constructor; [|exact IH]. exists events. split; [assumption|].
           eapply process_all_has_curve_rows, Hinv. reflexivity.
        -- exact IH.
        -- destruct IH as (run' & Hin & Hnone & Hmsg).
           exists run'. split; [right|]; auto.
        -- destruct IH as (run' & events' & Hin & Hsome & Hbad).
           exists run', events'. split; [right|]; auto.
        -- exact IH.
      * simpl.
        destruct (comprehension_lift_Raise _ _ _ _ _
                    (Hcomp {| self := plugin_of mux; calls := [] |}))
          as (event & Hin & Hraise).
        apply process_tensor_event_Raise in Hraise as [-> Hbad].
        exists run, events. split; [left|]. split; [assumption|].
        apply Exists_exists. eauto.
    + rewrite (pr_curves_loop_cons_missing _ _ _ _ _ _ Hlookup). simpl.
      exists run. split; [left|]. auto.
Qed.

(** X2. On a plugin that holds a store, [pr_curves_impl] has three
    outcomes only.  A mapping is returned only if every requested lookup
    succeeded on well-formed payloads; a [ValueError] carries the message
    naming a requested run whose lookup the store refused; an
    [IndexError] comes from a requested run with a payload lacking a
    reserved row.  The [KeyError] of the store never escapes. *)
Theorem pr_curves_impl_outcomes mux runs tag :
  match fst (call_on (plugin_of mux) (pr_curves_impl runs tag)) with
  | Return _ =>
      Forall (fun run => exists events,
                Tensors mux run tag = Some events
                /\ Forall has_curve_rows events) runs
  | Raise (ValueError msg) =>
      exists run, run ∈ runs /\ Tensors mux run tag = None
                  /\ msg = no_curves_message run tag
  | Raise IndexError =>
      exists run events,
        run ∈ runs /\ Tensors mux run tag = Some events
        /\ Exists (fun e => ~ has_curve_rows e) events
  | Raise KeyError | Raise AttributeError => False
  end.
Proof. apply pr_curves_loop_outcomes. Qed.

(** ** The calls [pr_curves_impl] makes on the store *)

Lemma pr_curves_loop_calls mux tag runs :
  forall (acc : gmap string (list CurveEntry)) cs,
    exists looked_up skipped,
      runs = looked_up ++ skipped
      /\ calls (snd (pr_curves_loop runs tag acc
                       {| self := plugin_of mux; calls := cs |}))
         = cs ++ map (tensors_call tag) looked_up
      /\ (forall m,
            fst (pr_curves_loop runs tag acc
                   {| self := plugin_of mux; calls := cs |}) = Return m ->
            skipped = [])
      /\ (forall msg,
            fst (pr_curves_loop runs tag acc
                   {| self := plugin_of mux; calls := cs |})
            = Raise (ValueError msg) ->
            exists pre run,
              looked_up = pre ++ [run]
              /\ Forall (fun r => is_Some (Tensors mux r tag)) pre
              /\ Tensors mux run tag = None
              /\ msg = no_curves_message run tag).
Proof.
  induction runs as [|run runs IH]; intros acc cs.
  - exists [], []. split; [reflexivity|]. split; [|split].
    + simpl. rewrite app_nil_r. reflexivity.
    + reflexivity.
    + discriminate.
  - destruct (Tensors mux run tag) as [events|] eqn:Hlookup.
    + destruct (comprehension_lift _process_tensor_event events)
        as (o & Hcomp & _).
      rewrite (pr_curves_loop_cons_found _ _ _ _ _ _ _ _ Hlookup Hcomp).
      destruct o as [entries|e].
      * destruct (IH (<[run := entries]> acc) (cs ++ [CallTensors run tag]))
          as (looked_up & skipped & -> & Hcalls & Hall & Hrefused).
        exists (run :: looked_up), skipped. split; [reflexivity|].
        split; [|split].
        -- rewrite Hcalls, <- app_assoc. reflexivity.
        -- exact Hall.
        -- intros msg Hmsg.
           destruct (Hrefused msg Hmsg) as (pre & run0 & -> & Hpre & Hnone & ->).
           exists (run :: pre), run0. split; [reflexivity|].
           split; [constructor; [rewrite Hlookup; eauto | assumption]|].
           auto.
      * exists [run], runs. split; [reflexivity|]. split; [|split].
        -- reflexivity.
        -- discriminate.
        -- simpl. intros msg [= ->].
           destruct (comprehension_lift_Raise _ _ _ _ _
                       (Hcomp {| self := plugin_of mux; calls := [] |}))
             as (event & _ & Hraise).
           apply process_tensor_event_Raise in Hraise as [Hidx _].
           discriminate.
    + rewrite (pr_curves_loop_cons_missing _ _ _ _ _ _ Hlookup).
      exists [run], runs. split; [reflexivity|]. split; [|split].
      * reflexivity.
      * discriminate.
      * simpl. intros msg [= <-]. exists [], run.
        split; [reflexivity|]. split; [constructor|]. auto.
Qed.

(** X3. The calls [pr_curves_impl] makes on the store are the lookups of
    an initial segment of the requested runs under the requested tag, in
    request order, a run requested twice being looked up twice.  The
    segment is the whole list when a mapping is returned.  When a
    [ValueError] is raised the segment ends at the run the message names,
    the first one the store refused: no later run is looked up. *)
Theorem pr_curves_impl_store_calls mux runs tag :
  exists looked_up skipped,
    runs = looked_up ++ skipped
    /\ calls (snd (call_on (plugin_of mux) (pr_curves_impl runs tag)))
       = map (tensors_call tag) looked_up
    /\ (forall m,
          fst (call_on (plugin_of mux) (pr_curves_impl runs tag)) = Return m ->
          skipped = [])
    /\ (forall msg,
          fst (call_on (plugin_of mux) (pr_curves_impl runs tag))
          = Raise (ValueError msg) ->
          exists pre run,
            looked_up = pre ++ [run]
            /\ Forall (fun r => is_Some (Tensors mux r tag)) pre
            /\ Tensors mux run tag = None
            /\ msg = no_curves_message run tag).
Proof. apply (pr_curves_loop_calls mux tag runs ∅ []). Qed.

(** ** How answers of [pr_curves_impl] compose *)

Lemma pr_curves_impl_success mux runs tag :
  Forall (fun run => exists events, Tensors mux run tag = Some events
                     /\ Forall has_curve_rows events) runs ->
  exists m : gmap string (list CurveEntry),
    call_on (plugin_of mux) (pr_curves_impl runs tag)
    = (Return m, {| self := plugin_of mux;
                    calls := map (tensors_call tag) runs |})
    /\ (forall run, run ∈ runs ->
          exists events entries,
            Tensors mux run tag = Some events
            /\ m !! run = Some entries
            /\ Forall2 (fun e c => _process_tensor_event e = Return c)
                 events entries)
    /\ (forall run, run ∉ runs -> m !! run = None).
Proof.
  intros Hall.
  destruct (pr_curves_loop_success mux tag runs ∅ Hall)
    as (m & Hrun & _ & Hin & Hout).
  exists m. split; [apply (Hrun [])|]. split; [exact Hin|].
  intros run Hnot. rewrite (Hout run Hnot). apply lookup_empty.
Qed.

Lemma same_lookup_same_entries mux run tag
    (events events' : list TensorEvent) (entries entries' : list CurveEntry) :
  Tensors mux run tag = Some events ->
  Tensors mux run tag = Some events' ->
  Forall2 (fun e c => _process_tensor_event e = Return c) events entries ->
  Forall2 (fun e c => _process_tensor_event e = Return c) events' entries' ->
  entries = entries'.
Proof.
  intros Hfound Hfound' Hconv Hconv'.
  rewrite Hfound in Hfound'. injection Hfound' as <-.
  eapply process_all_unique; eassumption.
Qed.

(** X4. When every requested lookup succeeds on well-formed payloads, the
    mapping returned by [pr_curves_impl] depends only on which run names
    are requested: two requests naming the same runs, in any order and
    with any repetitions, get equal mappings. *)
Theorem pr_curves_impl_depends_on_run_set mux runs runs' tag :
  Forall (fun run => exists events, Tensors mux run tag = Some events
                     /\ Forall has_curve_rows events) runs ->
  (forall run, run ∈ runs <-> run ∈ runs') ->
  exists m : gmap string (list CurveEntry),
    fst (call_on (plugin_of mux) (pr_curves_impl runs tag)) = Return m
    /\ fst (call_on (plugin_of mux) (pr_curves_impl runs' tag)) = Return m.
Proof.
  intros Hall Hsame.
  assert (Hall' : Forall (fun run => exists events,
                     Tensors mux run tag = Some events
                     /\ Forall has_curve_rows events) runs').
  { rewrite Forall_forall in Hall |- *. intros run Hin.
    apply Hall, Hsame, Hin. }
  destruct (pr_curves_impl_success mux runs tag Hall)
    as (m & -> & Hin & Hout).
  destruct (pr_curves_impl_success mux runs' tag Hall')
    as (m' & -> & Hin' & Hout').
  exists m. split; [reflexivity|]. simpl. f_equal.
  apply map_eq. intros run.
  destruct (decide (run ∈ runs)) as [Hrun|Hrun].
  - destruct (Hin run Hrun) as (events & entries & Hfound & -> & Hconv).
    destruct (Hin' run (proj1 (Hsame run) Hrun))
      as (events' & entries' & Hfound' & -> & Hconv').
    f_equal.
    exact (same_lookup_same_entries _ _ _ _ _ _ _ Hfound' Hfound Hconv' Hconv).
  - rewrite (Hout run Hrun). apply Hout'. intros Hrun'.
    apply Hrun, Hsame, Hrun'.
Qed.

(** X5. When every lookup succeeds on well-formed payloads, the mapping
    returned for the concatenation of two run lists is the union of the
    mappings returned for each list. *)
Theorem pr_curves_impl_app mux runs1 runs2 tag :
  Forall (fun run => exists events, Tensors mux run tag = Some events
                     /\ Forall has_curve_rows events) (runs1 ++ runs2) ->
  exists m1 m2 : gmap string (list CurveEntry),
    fst (call_on (plugin_of mux) (pr_curves_impl runs1 tag)) = Return m1
    /\ fst (call_on (plugin_of mux) (pr_curves_impl runs2 tag)) = Return m2
    /\ fst (call_on (plugin_of mux) (pr_curves_impl (runs1 ++ runs2) tag))
       = Return (m1 ∪ m2).
Proof.
  intros Hall. pose proof Hall as Hboth.
  apply Forall_app in Hboth as [Hall1 Hall2].
  destruct (pr_curves_impl_success mux runs1 tag Hall1)
    as (m1 & -> & Hin1 & Hout1).
  destruct (pr_curves_impl_success mux runs2 tag Hall2)
    as (m2 & -> & Hin2 & Hout2).
  destruct (pr_curves_impl_success mux (runs1 ++ runs2) tag Hall)
    as (m & -> & Hin & Hout).
  exists m1, m2. split; [reflexivity|]. split; [reflexivity|].
  simpl. f_equal. apply map_eq. intros run. rewrite lookup_union.
  destruct (decide (run ∈ runs1)) as [Hrun1|Hrun1].
  - destruct (Hin1 run Hrun1) as (events1 & entries1 & Hfound1 & -> & Hconv1).
    destruct (Hin run) as (events & entries & Hfound & -> & Hconv).
    { apply elem_of_app. left. exact Hrun1. }
    rewrite (same_lookup_same_entries _ _ _ _ _ _ _
               Hfound Hfound1 Hconv Hconv1).
    destruct (m2 !! run); reflexivity.
  - rewrite (Hout1 run Hrun1).
    destruct (decide (run ∈ runs2)) as [Hrun2|Hrun2].
    + destruct (Hin2 run Hrun2) as (events2 & entries2 & Hfound2 & -> & Hconv2).
      destruct (Hin run) as (events & entries & Hfound & -> & Hconv).
      { apply elem_of_app. right. exact Hrun2. }
      rewrite (same_lookup_same_entries _ _ _ _ _ _ _
                 Hfound Hfound2 Hconv Hconv2).
      reflexivity.
    + rewrite (Hout2 run Hrun2). rewrite Hout; [reflexivity|].
      intros [?|?]%elem_of_app; contradiction.
Qed.

(** ** Answers of the [/pr_curves] route *)

Lemma tag_truthy tag : tag <> "" -> str_falsy (Some tag) = false.
Proof.
  intros Hne. simpl. destruct (String.eqb_spec tag ""); [contradiction|].
  reflexivity.
Qed.

Lemma pr_curves_route_checked request tag :
  getlist (args request) "run" <> [] ->
  get (args request) "tag" = Some tag ->
  tag <> "" ->
  pr_curves_route request
  = try_except_ValueError
      (curves ← pr_curves_impl (getlist (args request) "run") tag;
       mret (Respond request (JsonCurves curves)
               (PyStr "application/json") None))
      (fun e =>
         mret (Respond request (Text (str_exn e)) (PyStr "text/plain")
                 (Some 400%Z))).
Proof.
  intros Hruns Htag Hne. unfold pr_curves_route.
  destruct (getlist (args request) "run") as [|r rs]; [contradiction|].
  rewrite Htag, (tag_truthy tag Hne). reflexivity.
Qed.

(** X6. A request with a non-empty tag whose run list has a first run
    the store refuses, the payloads of the runs before it being well
    formed, is answered, not raised: the route makes the call
    [Respond(request, message, 'text/plain', 400)] where the message is
    ['No PR curves could be fetched for run %r and tag %r'] filled in
    with that run and the tag, and the store was asked about the runs up
    to that one only. *)
Theorem pr_curves_route_lookup_failure mux request tag pre run post :
  get (args request) "tag" = Some tag ->
  tag <> "" ->
  getlist (args request) "run" = pre ++ run :: post ->
  Forall (fun r => exists events, Tensors mux r tag = Some events
                   /\ Forall has_curve_rows events) pre ->
  Tensors mux run tag = None ->
  call_on (plugin_of mux) (pr_curves_route request)
  = (Return (Respond request
               (Text ("No PR curves could be fetched for run "
                      +:+ repr run +:+ " and tag " +:+ repr tag))
               (PyStr "text/plain") (Some 400%Z)),
     {| self := plugin_of mux;
        calls := map (tensors_call tag) (pre ++ [run]) |}).
Proof.
  intros Htag Hne Hruns Hpre Hnone.
  rewrite (pr_curves_route_checked request tag); [|
    rewrite Hruns; intros Hnil; apply app_eq_nil in Hnil as [_ Hnil];
    discriminate | assumption | assumption].
  unfold call_on, try_except_ValueError, mbind, Py_bind, pr_curves_impl.
  rewrite Hruns.
  rewrite (pr_curves_loop_first_refused mux tag pre run post ∅ [] Hpre Hnone).
  reflexivity.
Qed.

(** X7. A request with at least one run and a non-empty tag, all of whose
    lookups succeed on well-formed payloads, is answered with the mapping
    [pr_curves_impl] returns, as ['application/json'] and without an
    explicit code, after one lookup per requested run. *)
Theorem pr_curves_route_success mux request tag :
  get (args request) "tag" = Some tag ->
  tag <> "" ->
  getlist (args request) "run" <> [] ->
  Forall (fun run => exists events, Tensors mux run tag = Some events
                     /\ Forall has_curve_rows events)
    (getlist (args request) "run") ->
  exists m : gmap string (list CurveEntry),
    fst (call_on (plugin_of mux)
           (pr_curves_impl (getlist (args request) "run") tag)) = Return m
    /\ call_on (plugin_of mux) (pr_curves_route request)
       = (Return (Respond request (JsonCurves m)
                    (PyStr "application/json") None),
          {| self := plugin_of mux;
             calls := map (tensors_call tag) (getlist (args request) "run") |}).
Proof.
  intros Htag Hne Hsome Hall.
  destruct (pr_curves_impl_success mux _ tag Hall) as (m & Hrun & _).
  exists m. split; [rewrite Hrun; reflexivity|].
  unfold call_on, pr_curves_route in *.
  destruct (getlist (args request) "run") as [|r rs] eqn:Hruns.
  { contradiction. }
  rewrite Htag, (tag_truthy tag Hne).
  unfold try_except_ValueError, mbind, Py_bind. simpl default.
  rewrite Hrun. reflexivity.
Qed.

(** X8. For a request that passes both parameter checks, on a plugin
    that holds a store, the route follows [pr_curves_impl]: where that
    returns a mapping the route makes the call [Respond(request, mapping,
    'application/json')]; where it raises [ValueError] the route catches
    it and makes the call [Respond(request, str(e), 'text/plain', 400)];
    and the route raises only where [pr_curves_impl] raised the
    [IndexError] of a requested run with a payload lacking a reserved
    row, which it does not catch.  The route asks the store nothing
    beyond what [pr_curves_impl] asks. *)
Theorem pr_curves_route_follows_impl mux request tag :
  getlist (args request) "run" <> [] ->
  get (args request) "tag" = Some tag ->
  tag <> "" ->
  (forall m,
      fst (call_on (plugin_of mux)
             (pr_curves_impl (getlist (args request) "run") tag)) = Return m ->
      fst (call_on (plugin_of mux) (pr_curves_route request))
      = Return (Respond request (JsonCurves m)
                  (PyStr "application/json") None))
  /\ (forall msg,
        fst (call_on (plugin_of mux)
               (pr_curves_impl (getlist (args request) "run") tag))
        = Raise (ValueError msg) ->
        fst (call_on (plugin_of mux) (pr_curves_route request))
        = Return (Respond request (Text msg) (PyStr "text/plain")
                    (Some 400%Z)))
  /\ (forall e,
        fst (call_on (plugin_of mux) (pr_curves_route request)) = Raise e ->
        e = IndexError
        /\ fst (call_on (plugin_of mux)
                  (pr_curves_impl (getlist (args request) "run") tag))
           = Raise IndexError
        /\ exists run events,
             run ∈ getlist (args request) "run"
             /\ Tensors mux run tag = Some events
             /\ Exists (fun event => ~ has_curve_rows event) events)
  /\ calls (snd (call_on (plugin_of mux) (pr_curves_route request)))
     = calls (snd (call_on (plugin_of mux)
                     (pr_curves_impl (getlist (args request) "run") tag))).
Proof.
  intros Hruns Htag Hne.
  rewrite (pr_curves_route_checked request tag Hruns Htag Hne).
  unfold call_on, try_except_ValueError, mbind, Py_bind, pr_curves_impl.
  pose proof (pr_curves_loop_outcomes mux tag
                (getlist (args request) "run") ∅ []) as Hout.
  destruct (pr_curves_loop (getlist (args request) "run") tag ∅
              {| self := plugin_of mux; calls := [] |})
    as [[m|[|msg| |]] h']; simpl in Hout; try contradiction; simpl.
  - split; [intros m' [= <-]; reflexivity|].
    split; [discriminate|]. split; [discriminate | reflexivity].
  - split; [discriminate|].
    split; [intros msg' [= <-]; reflexivity|].
    split; [discriminate | reflexivity].
  - split; [discriminate|]. split; [discriminate|].
    split; [|reflexivity]. intros e [= <-]. auto.
Qed.

(** X9. For a request that passes both parameter checks, on a store all
    of whose payloads are well formed, nothing escapes the [try] block of
    the route: it reaches either the call [Respond(request, mapping,
    'application/json')], or the call [Respond(request, message,
    'text/plain', 400)] whose message is the format string filled in with
    a requested run the store refused and the tag. *)
Theorem pr_curves_route_reaches_respond mux request tag :
  getlist (args request) "run" <> [] ->
  get (args request) "tag" = Some tag ->
  tag <> "" ->
  (forall run events, Tensors mux run tag = Some events ->
                      Forall has_curve_rows events) ->
  (exists m : gmap string (list CurveEntry),
      fst (call_on (plugin_of mux) (pr_curves_route request))
      = Return (Respond request (JsonCurves m)
                  (PyStr "application/json") None))
  \/ (exists run,
         run ∈ getlist (args request) "run"
         /\ Tensors mux run tag = None
         /\ fst (call_on (plugin_of mux) (pr_curves_route request))
            = Return (Respond request
                        (Text ("No PR curves could be fetched for run "
                               +:+ repr run +:+ " and tag " +:+ repr tag))
                        (PyStr "text/plain") (Some 400%Z))).
Proof.
  intros Hruns Htag Hne Hrows.
  rewrite (pr_curves_route_checked request tag Hruns Htag Hne).
  unfold call_on, try_except_ValueError, mbind, Py_bind, pr_curves_impl.
  pose proof (pr_curves_loop_outcomes mux tag
                (getlist (args request) "run") ∅ []) as Hout.
  destruct (pr_curves_loop (getlist (args request) "run") tag ∅
              {| self := plugin_of mux; calls := [] |})
    as [[m|[|msg| |]] h']; simpl in Hout; try contradiction; simpl.
  - left. exists m. reflexivity.
  - right. destruct Hout as (run & Hin & Hnone & ->).
    exists run. split; [assumption|]. split; [assumption | reflexivity].
  - exfalso. destruct Hout as (run & events & _ & Hfound & Hbad).
    apply Exists_exists in Hbad as (event & Hin & Hbad).
    pose proof (Hrows run events Hfound) as Hok.
    rewrite Forall_forall in Hok. exact (Hbad (Hok event Hin)).
Qed.

(** X10. A request that names at least one run but whose tag is absent
    or the empty string is answered with the missing-tag message before
    the store is touched, on any plugin object, with or without store. *)
Theorem pr_curves_route_falsy_tag plugin request :
  getlist (args request) "run" <> [] ->
  get (args request) "tag" = None \/ get (args request) "tag" = Some "" ->
  call_on plugin (pr_curves_route request)
  = (Return (Respond request
               (Text "No tag provided when fetching PR curve data")
               (PyInt 400) None),
     {| self := plugin; calls := [] |}).
Proof.
  intros Hruns Htag. unfold call_on, pr_curves_route.
  destruct (getlist (args request) "run"); [contradiction|].
  destruct Htag as [-> | ->]; reflexivity.
Qed.

(** ** [available_steps_impl]: refused lookups and calls on the store *)

Lemma available_steps_loop_unknown mux
    (all_runs : list (string * pydict string)) :
  forall (acc : gmap string (list Z)) cs,
    Exists (fun item => ~ sampled_tag_known mux item) all_runs ->
    exists h,
      available_steps_loop all_runs acc
        {| self := plugin_of mux; calls := cs |}
      = (Raise KeyError, h).
Proof.
  induction all_runs as [|[run ttc] rest IH]; intros acc cs Hunknown.
  - inversion Hunknown.
  - destruct ttc as [|[first_tag content] more].
    + apply Exists_cons in Hunknown as [Hhere|Hlater].
      * exfalso. apply Hhere. exact I.
      * apply (IH acc cs Hlater).
    + destruct (Tensors mux run first_tag) as [events|] eqn:Hlookup.
      * rewrite (available_steps_loop_found _ _ _ _ _ _ _ _ _ Hlookup).
        apply Exists_cons in Hunknown as [Hhere|Hlater].
        -- exfalso. apply Hhere. simpl. rewrite Hlookup. eauto.
        -- apply IH, Hlater.
      * rewrite (available_steps_loop_missing _ _ _ _ _ _ _ _ Hlookup).
        eauto.
Qed.

(** X11. If the store lists a run whose first tag it holds no events
    for, [available_steps_impl] raises the store's [KeyError] instead of
    returning steps for the other runs, and the [/available_steps] route
    lets that exception through. *)
Theorem available_steps_unknown_sampled_tag mux request :
  Exists (fun item => ~ sampled_tag_known mux item)
    (items (PluginRunToTagToContent mux PLUGIN_NAME)) ->
  fst (call_on (plugin_of mux) available_steps_impl) = Raise KeyError
  /\ fst (call_on (plugin_of mux) (available_steps_route request))
     = Raise KeyError.
Proof.
  intros Hunknown.
  destruct (available_steps_loop_unknown mux _ ∅
              [CallPluginRunToTagToContent PLUGIN_NAME] Hunknown)
    as (h & Hloop).
  unfold items in Hloop.
  unfold call_on, available_steps_route, available_steps_impl, mbind, Py_bind,
    self_multiplexer_PluginRunToTagToContent, log_call, items. simpl.
  rewrite Hloop. split; reflexivity.
Qed.

Lemma available_steps_loop_calls mux
    (all_runs : list (string * pydict string)) :
  forall (acc : gmap string (list Z)) cs,
    exists log,
      calls (snd (available_steps_loop all_runs acc
                    {| self := plugin_of mux; calls := cs |}))
      = cs ++ log
      /\ Forall (fun c => exists run tag_to_content sampled_tag,
                   c = CallTensors run sampled_tag
                   /\ (run, tag_to_content) ∈ all_runs
                   /\ head (keys tag_to_content) = Some sampled_tag) log.
Proof.
  induction all_runs as [|[run ttc] rest IH]; intros acc cs.
  - exists []. split; [simpl; rewrite app_nil_r; reflexivity | constructor].
  - assert (Hweaken : forall log,
      Forall (fun c => exists run tag_to_content sampled_tag,
                c = CallTensors run sampled_tag
                /\ (run, tag_to_content) ∈ rest
                /\ head (keys tag_to_content) = Some sampled_tag) log ->
      Forall (fun c => exists run' tag_to_content sampled_tag,
                c = CallTensors run' sampled_tag
                /\ (run', tag_to_content) ∈ (run, ttc) :: rest
                /\ head (keys tag_to_content) = Some sampled_tag) log).
    { intros log Hlog. eapply Forall_impl; [exact Hlog|].
      intros c (run' & ttc' & t & -> & Hin & Hhead).
      exists run', ttc', t. split; [reflexivity|]. split; [right|]; assumption. }
    destruct ttc as [|[first_tag content] more].
    + destruct (IH acc cs) as (log & Hcalls & Hlog).
      exists log. split; [exact Hcalls | apply Hweaken, Hlog].
    + assert (Hhere : exists run' tag_to_content sampled_tag,
                CallTensors run first_tag = CallTensors run' sampled_tag
                /\ (run', tag_to_content)
                     ∈ (run, (first_tag, content) :: more) :: rest
                /\ head (keys tag_to_content) = Some sampled_tag).
      { exists run, ((first_tag, content) :: more), first_tag.
        split; [reflexivity|]. split; [left | reflexivity]. }
      destruct (Tensors mux run first_tag) as [events|] eqn:Hlookup.
      * rewrite (available_steps_loop_found _ _ _ _ _ _ _ _ _ Hlookup).
        destruct (IH (<[run := map step events]> acc)
                    (cs ++ [CallTensors run first_tag]))
          as (log & Hcalls & Hlog).
        exists (CallTensors run first_tag :: log). split.
        -- rewrite Hcalls, <- app_assoc. reflexivity.
        -- constructor; [exact Hhere | apply Hweaken, Hlog].
      * rewrite (available_steps_loop_missing _ _ _ _ _ _ _ _ Hlookup).
        exists [CallTensors run first_tag]. split; [reflexivity|].
        constructor; [exact Hhere | constructor].
Qed.

(** X12. [available_steps_impl] first asks the store for the run-to-tags
    mapping of the plugin, and every call after that is the lookup of a
    listed run under the first tag of that run: the events of no other
    tag are ever read. *)
Theorem available_steps_impl_store_calls mux :
  exists log,
    calls (snd (call_on (plugin_of mux) available_steps_impl))
    = CallPluginRunToTagToContent PLUGIN_NAME :: log
    /\ Forall (fun c => exists run tag_to_content sampled_tag,
                 c = CallTensors run sampled_tag
                 /\ (run, tag_to_content)
                      ∈ items (PluginRunToTagToContent mux PLUGIN_NAME)
                 /\ head (keys tag_to_content) = Some sampled_tag) log.
Proof.
  destruct (available_steps_loop_calls mux
              (PluginRunToTagToContent mux PLUGIN_NAME) ∅
              [CallPluginRunToTagToContent PLUGIN_NAME])
    as (log & Hcalls & Hlog).
  exists log. split; [|exact Hlog].
  unfold call_on, available_steps_impl, mbind, Py_bind,
    self_multiplexer_PluginRunToTagToContent, log_call, items. simpl.
  exact Hcalls.
Qed.

(** ** The discovery methods agree with each other *)

Lemma tags_impl_result mux :
  call_on (plugin_of mux) tags_impl
  = (Return (tags_comprehension
               (items (PluginRunToTagToContent mux PLUGIN_NAME)) ∅),
     {| self := plugin_of mux;
        calls := [CallPluginRunToTagToContent PLUGIN_NAME] |}).
Proof. reflexivity. Qed.

Lemma is_active_result mux :
  call_on (plugin_of mux) is_active
  = (Return (any dict_truthy
               (itervalues (PluginRunToTagToContent mux PLUGIN_NAME))),
     {| self := plugin_of mux;
        calls := [CallPluginRunToTagToContent PLUGIN_NAME] |}).
Proof. reflexivity. Qed.

Lemma keys_nil {V} (d : pydict V) : keys d = [] <-> d = [].
Proof. destruct d; simpl; split; intros; congruence. Qed.

Lemma tags_comprehension_values (all_runs : list (string * pydict string)) :
  forall (acc : gmap string (list string)) run names,
    tags_comprehension all_runs acc !! run = Some names ->
    acc !! run = Some names
    \/ exists tag_to_content,
         (run, tag_to_content) ∈ all_runs /\ names = keys tag_to_content.
Proof.
  induction all_runs as [|[run' ttc] rest IH]; intros acc run names Hlook.
  - left. exact Hlook.
  - simpl in Hlook. destruct (IH _ _ _ Hlook) as [Hacc|(ttc' & Hin & ->)].
    + destruct (decide (run' = run)) as [->|Hne].
      * rewrite lookup_insert_eq in Hacc. injection Hacc as <-.
        right. exists ttc. split; [left | reflexivity].
      * rewrite lookup_insert_ne in Hacc by assumption. left. exact Hacc.
    + right. exists ttc'. split; [right; assumption | reflexivity].
Qed.

(** X13. The store listing each run once, the plugin is active exactly
    when the mapping returned by [tags_impl] has a run with a non-empty
    list of tags. *)
Theorem is_active_iff_tags_impl_lists_a_tag mux :
  NoDup (keys (PluginRunToTagToContent mux PLUGIN_NAME)) ->
  exists (active : bool) (response : gmap string (list string)),
    fst (call_on (plugin_of mux) is_active) = Return active
    /\ fst (call_on (plugin_of mux) tags_impl) = Return response
    /\ (active = true <->
        exists run names, response !! run = Some names /\ names <> []).
Proof.
  intros Hnodup.
  exists (any dict_truthy (itervalues (PluginRunToTagToContent mux PLUGIN_NAME))),
    (tags_comprehension (items (PluginRunToTagToContent mux PLUGIN_NAME)) ∅).
  rewrite is_active_result, tags_impl_result.
  split; [reflexivity|]. split; [reflexivity|].
  rewrite any_dict_truthy. unfold items.
  revert Hnodup.
  generalize (PluginRunToTagToContent mux PLUGIN_NAME). intros all_runs Hnodup.
  split.
  - intros (run & ttc & Hin & Hne).
    destruct (tags_comprehension_spec all_runs ∅) as (_ & Hvalues & _).
    exists run, (keys ttc). split; [apply Hvalues; assumption|].
    intros Hnil. apply Hne, keys_nil, Hnil.
  - intros (run & names & Hlook & Hne).
    destruct (tags_comprehension_values _ _ _ _ Hlook)
      as [Hacc|(ttc & Hin & ->)].
    { rewrite lookup_empty in Hacc. discriminate. }
    exists run, ttc. split; [assumption|].
    intros ->. apply Hne. reflexivity.
Qed.

Lemma available_steps_impl_success mux :
  NoDup (keys (PluginRunToTagToContent mux PLUGIN_NAME)) ->
  Forall (sampled_tag_known mux) (PluginRunToTagToContent mux PLUGIN_NAME) ->
  exists response : gmap string (list Z),
    fst (call_on (plugin_of mux) available_steps_impl) = Return response
    /\ (forall run,
          run ∉ keys (PluginRunToTagToContent mux PLUGIN_NAME) ->
          response !! run = None)
    /\ (forall run tag_to_content,
          (run, tag_to_content) ∈ PluginRunToTagToContent mux PLUGIN_NAME ->
          match tag_to_content with
          | [] => response !! run = None
          | (first_tag, _) :: _ =>
              exists events,
                Tensors mux run first_tag = Some events
                /\ response !! run = Some (map step events)
          end).
Proof.
  intros Hnodup Hknown.
  destruct (available_steps_loop_success mux _ ∅ Hknown)
    as (response & log & Hrun & Hout & Hin).
  exists response. split; [|split].
  - unfold call_on, available_steps_impl, mbind, Py_bind,
      self_multiplexer_PluginRunToTagToContent, log_call, items. simpl.
    rewrite Hrun. reflexivity.
  - intros run Hnot. rewrite (Hout run Hnot). apply lookup_empty.
  - intros run ttc Hitem. specialize (Hin Hnodup run ttc Hitem).
    destruct ttc as [|[t c] more]; [|exact Hin].
    rewrite Hin. apply lookup_empty.
Qed.

(** X14. The store listing each run once and answering the lookup of
    every sampled tag, the runs that [available_steps_impl] gives steps
    for are exactly the runs to which [tags_impl] gives a non-empty list
    of tags. *)
Theorem available_steps_keys_are_the_tagged_runs mux :
  NoDup (keys (PluginRunToTagToContent mux PLUGIN_NAME)) ->
  Forall (sampled_tag_known mux) (PluginRunToTagToContent mux PLUGIN_NAME) ->
  exists (steps : gmap string (list Z)) (tags : gmap string (list string)),
    fst (call_on (plugin_of mux) available_steps_impl) = Return steps
    /\ fst (call_on (plugin_of mux) tags_impl) = Return tags
    /\ forall run,
         is_Some (steps !! run) <->
         exists names, tags !! run = Some names /\ names <> [].
Proof.
  intros Hnodup Hknown.
  destruct (available_steps_impl_success mux Hnodup Hknown)
    as (steps & Hsteps & Hout & Hin).
  exists steps,
    (tags_comprehension (items (PluginRunToTagToContent mux PLUGIN_NAME)) ∅).
  split; [exact Hsteps|]. rewrite tags_impl_result. split; [reflexivity|].
  unfold items. simpl fst.
  destruct (tags_comprehension_spec (PluginRunToTagToContent mux PLUGIN_NAME) ∅)
    as (_ & Hvalues & _).
  specialize (Hvalues Hnodup).
  intros run. split.
  - intros Hsome.
    destruct (decide (run ∈ keys (PluginRunToTagToContent mux PLUGIN_NAME)))
      as [Hkey|Hnot].
    + apply list_elem_of_fmap in Hkey as ([run' ttc] & -> & Hitem).
      simpl in *. exists (keys ttc). split; [apply Hvalues, Hitem|].
      intros Hnil. apply keys_nil in Hnil. subst ttc.
      rewrite (Hin _ [] Hitem) in Hsome. destruct Hsome as [? ?]. discriminate.
    + rewrite (Hout run Hnot) in Hsome. destruct Hsome as [? ?]. discriminate.
  - intros (names & Hlook & Hne).
    destruct (tags_comprehension_values _ _ _ _ Hlook)
      as [Hacc|(ttc & Hitem & ->)].
    { rewrite lookup_empty in Hacc. discriminate. }
    specialize (Hin run ttc Hitem).
    destruct ttc as [|[t c] more]; [contradiction|].
    destruct Hin as (events & _ & ->). eauto.
Qed.

Lemma process_all_steps (events : list TensorEvent)
    (entries : list CurveEntry) :
  Forall2 (fun e c => _process_tensor_event e = Return c) events entries ->
  map step events = map entry_step entries.
Proof.
  induction 1 as [|e c events entries Hc _ IH]; [reflexivity|].
  simpl. apply process_tensor_event_Return in Hc as (_ & Hstep & _).
  rewrite Hstep, IH. reflexivity.
Qed.

(** X15. For a listed run, the steps [available_steps_impl] reports are
    the steps of the curve entries [pr_curves_impl] returns for that run
    under its first tag, in the same order (the store listing each run
    once, answering every sampled lookup, with well-formed payloads for
    the pair at hand). *)
Theorem available_steps_match_curve_entries mux run
    (tag_to_content : pydict string) sampled_tag :
  NoDup (keys (PluginRunToTagToContent mux PLUGIN_NAME)) ->
  Forall (sampled_tag_known mux) (PluginRunToTagToContent mux PLUGIN_NAME) ->
  (run, tag_to_content) ∈ items (PluginRunToTagToContent mux PLUGIN_NAME) ->
  head (keys tag_to_content) = Some sampled_tag ->
  (forall events, Tensors mux run sampled_tag = Some events ->
                  Forall has_curve_rows events) ->
  exists (steps : gmap string (list Z)) (m : gmap string (list CurveEntry))
         (entries : list CurveEntry),
    fst (call_on (plugin_of mux) available_steps_impl) = Return steps
    /\ fst (call_on (plugin_of mux) (pr_curves_impl [run] sampled_tag))
       = Return m
    /\ m !! run = Some entries
    /\ steps !! run = Some (map entry_step entries).
Proof.
  intros Hnodup Hknown Hitem Hhead Hrows.
  destruct (available_steps_impl_success mux Hnodup Hknown)
    as (steps & Hsteps & _ & Hin).
  specialize (Hin run tag_to_content Hitem).
  destruct tag_to_content as [|[t c] more]; [discriminate|].
  injection Hhead as ->.
  destruct Hin as (events & Hfound & Hlook).
  assert (Hall : Forall (fun run => exists events,
                    Tensors mux run sampled_tag = Some events
                    /\ Forall has_curve_rows events) [run]).
  { constructor; [|constructor]. exists events. auto. }
  destruct (pr_curves_impl_success mux [run] sampled_tag Hall)
    as (m & Hm & Hcurves & _).
  destruct (Hcurves run) as (events' & entries & Hfound' & Hentries & Hconv).
  { left. }
  rewrite Hfound in Hfound'. injection Hfound' as <-.
  exists steps, m, entries. split; [exact Hsteps|].
  split; [rewrite Hm; reflexivity|]. split; [exact Hentries|].
  rewrite Hlook. f_equal. apply process_all_steps, Hconv.
Qed.

(** X16. On a plugin that holds a store the [/tags] route always
    answers, as ['application/json'], after a single run-to-tags query;
    the mapping it carries has exactly the runs of the store as keys, and
    each value is the list of tag names of a mapping the store lists for
    that run. *)
Theorem tags_route_answers mux request :
  exists m : gmap string (list string),
    call_on (plugin_of mux) (tags_route request)
    = (Return (Respond request (JsonTags m) (PyStr "application/json") None),
       {| self := plugin_of mux;
          calls := [CallPluginRunToTagToContent PLUGIN_NAME] |})
    /\ dom m = list_to_set (keys (PluginRunToTagToContent mux PLUGIN_NAME))
    /\ forall run names,
         m !! run = Some names ->
         exists tag_to_content,
           (run, tag_to_content)
             ∈ items (PluginRunToTagToContent mux PLUGIN_NAME)
           /\ names = keys tag_to_content.
Proof.
  exists (tags_comprehension (items (PluginRunToTagToContent mux PLUGIN_NAME)) ∅).
  split; [reflexivity|]. unfold items. split.
  - destruct (tags_comprehension_spec
                (PluginRunToTagToContent mux PLUGIN_NAME) ∅) as (_ & _ & ->).
    rewrite dom_empty_L. apply (left_id_L ∅ (∪)).
  - intros run names Hlook.
    destruct (tags_comprehension_values _ _ _ _ Hlook) as [Hacc|Hlisted].
    + rewrite lookup_empty in Hacc. discriminate.
    + exact Hlisted.
Qed.

End MoreProperties.

(** * The statements on the sample store *)

#[local] Existing Instance Sample.externals.

(** C1. The code departs from the claim: on the sample store, whatever
    description is recorded for the tag, [tags_impl] maps each run to the
    plain list of its tag names; no display name or description is part
    of the result. *)
Theorem C1_tags_impl_returns_tag_names (description : string) :
  fst (call_on (plugin_of (Sample.store_with description)) tags_impl)
  = Return (<["colors" := ["blue/pr_curves"]]> (<["idle" := []]> ∅)).
Proof. vm_compute. reflexivity. Qed.

(** C3. The code departs from the claim: a request without [run], and a
    request without [tag], are answered without any call on the store,
    but the call that builds the answer passes 400 where the content type
    goes and passes no status code; only the answer to a refused lookup
    passes ['text/plain'] and the code 400. *)
Theorem C3_validation_answers_pass_400_as_content_type :
  call_on (plugin_of Sample.store) (pr_curves_route Sample.only_tag)
  = (Return (Respond Sample.only_tag
               (Text "No runs provided when fetching PR curve data")
               (PyInt 400) None),
     {| self := plugin_of Sample.store; calls := [] |})
  /\ call_on (plugin_of Sample.store) (pr_curves_route Sample.only_run)
     = (Return (Respond Sample.only_run
                  (Text "No tag provided when fetching PR curve data")
                  (PyInt 400) None),
        {| self := plugin_of Sample.store; calls := [] |})
  /\ call_on (plugin_of Sample.store) (pr_curves_route Sample.unknown_tag)
     = (Return (Respond Sample.unknown_tag
                  (Text "No PR curves could be fetched for run 'colors' and tag 'missing'")
                  (PyStr "text/plain") (Some 400%Z)),
        {| self := plugin_of Sample.store;
           calls := [CallTensors "colors" "missing"] |}).
Proof. repeat split. Qed.

(** ** The scenarios of the store with data and of the empty store *)

Example available_steps_sample :
  fst (call_on (plugin_of Sample.store) available_steps_impl)
  = Return {["colors" := [0; 1; 2]%Z]}.
Proof. vm_compute. reflexivity. Qed.

Example pr_curves_sample_steps :
  match fst (call_on (plugin_of Sample.store)
               (pr_curves_impl ["colors"] "blue/pr_curves")) with
  | Return m => map entry_step <$> m !! "colors" = Some [0; 1; 2]%Z
  | Raise _ => False
  end.
Proof. vm_compute. reflexivity. Qed.

Example empty_store_scenario :
  fst (call_on (plugin_of Sample.empty_store) tags_impl) = Return ∅
  /\ fst (call_on (plugin_of Sample.empty_store) available_steps_impl)
     = Return ∅
  /\ fst (call_on (plugin_of Sample.empty_store) is_active) = Return false.
Proof. repeat split. Qed.

(** ** Instances of the statements that carry hypotheses *)

Lemma sample_lookups_succeed :
  Forall (fun run => exists events,
            Tensors Sample.store run "blue/pr_curves" = Some events
            /\ Forall has_curve_rows events) ["colors"; "colors"].
Proof.
  repeat (constructor;
          [exists Sample.blue_events; split;
           [reflexivity | repeat (constructor; [split; vm_compute; lia|]);
                          constructor]|]).
  constructor.
Defined.

Lemma sample_payloads_well_formed run tag events :
  Tensors Sample.store run tag = Some events -> Forall has_curve_rows events.
Proof.
  simpl.
  destruct (String.eqb run "colors" && String.eqb tag "blue/pr_curves")%bool;
    [|discriminate].
  intros [= <-].
  repeat (constructor; [split; vm_compute; lia|]). constructor.
Defined.

Lemma sample_runs_listed_once :
  NoDup (keys (PluginRunToTagToContent Sample.store PLUGIN_NAME)).
Proof. apply (bool_decide_unpack _). vm_compute. exact I. Defined.

Lemma C2_lookup_failure_witness :
  Exists (fun run => Tensors Sample.store run "blue/pr_curves" = None)
    ["colors"; "missing"; "colors"]
  /\ fst (call_on (plugin_of Sample.store)
            (pr_curves_impl ["colors"; "missing"; "colors"]
               "blue/pr_curves"))
     = Raise (ValueError
                "No PR curves could be fetched for run 'missing' and tag 'blue/pr_curves'").
Proof.
  assert (Hmiss : Exists
            (fun run => Tensors Sample.store run "blue/pr_curves" = None)
            ["colors"; "missing"; "colors"]).
  { right. left. reflexivity. }
  split; [exact Hmiss|].
  destruct (C2_lookup_failure_fails_whole_call Sample.store
              ["colors"; "missing"; "colors"] "blue/pr_curves" Hmiss)
    as [_ (pre & run & post & Hsplit & Hpre & Hnone & Hnamed)].
  destruct pre as [|first [|second pre]].
  - injection Hsplit as <- _. discriminate Hnone.
  - injection Hsplit as <- <- _. rewrite Hnamed; [reflexivity|].
    constructor; [|constructor].
    apply (sample_payloads_well_formed "colors" "blue/pr_curves").
  - injection Hsplit as <- <- _.
    apply Forall_cons in Hpre as [_ Hpre].
    apply Forall_cons in Hpre as [[events Hevents] _].
    discriminate Hevents.
Defined.

Lemma C4_curve_entries_witness :
  Forall (fun run => exists events,
            Tensors Sample.store run "blue/pr_curves" = Some events
            /\ Forall has_curve_rows events) ["colors"; "colors"]
  /\ exists m : gmap string (list CurveEntry),
       fst (call_on (plugin_of Sample.store)
              (pr_curves_impl ["colors"; "colors"] "blue/pr_curves"))
       = Return m
       /\ exists events entries,
            Tensors Sample.store "colors" "blue/pr_curves" = Some events
            /\ m !! "colors" = Some entries
            /\ length entries = length events.
Proof.
  split; [exact sample_lookups_succeed|].
  destruct (C4_events_become_curve_entries Sample.store ["colors"; "colors"]
              "blue/pr_curves" sample_lookups_succeed) as (m & Hm & Hruns).
  exists m. split; [exact Hm|].
  destruct (Hruns "colors") as (events & entries & Hfound & Hlook & Hlen & _).
  { left. }
  exists events, entries. auto.
Defined.

Lemma C10_distinct_runs_witness :
  Forall (fun run => exists events,
            Tensors Sample.store run "blue/pr_curves" = Some events
            /\ Forall has_curve_rows events) ["colors"; "colors"]
  /\ exists m : gmap string (list CurveEntry),
       fst (call_on (plugin_of Sample.store)
              (pr_curves_impl ["colors"; "colors"] "blue/pr_curves"))
       = Return m
       /\ dom m = list_to_set ["colors"; "colors"]
       /\ size m = 1.
Proof.
  split; [exact sample_lookups_succeed|].
  destruct (C10_keys_are_the_distinct_runs Sample.store ["colors"; "colors"]
              "blue/pr_curves" sample_lookups_succeed)
    as (m & Hm & Hdom & Hsize & _).
  exists m. split; [exact Hm|]. split; [exact Hdom|].
  rewrite Hsize. reflexivity.
Defined.

Lemma C5_available_steps_witness :
  NoDup (keys (PluginRunToTagToContent Sample.store PLUGIN_NAME))
  /\ Forall (sampled_tag_known Sample.store)
       (PluginRunToTagToContent Sample.store PLUGIN_NAME)
  /\ exists response : gmap string (list Z),
       fst (call_on (plugin_of Sample.store) available_steps_impl)
       = Return response
       /\ response !! "idle" = None
       /\ exists steps, response !! "colors" = Some steps /\ length steps = 3.
Proof.
  assert (Hknown : Forall (sampled_tag_known Sample.store)
                     (PluginRunToTagToContent Sample.store PLUGIN_NAME)).
  { constructor; [exists Sample.blue_events; reflexivity|].
    constructor; [exact I | constructor]. }
  split; [exact sample_runs_listed_once|]. split; [exact Hknown|].
  destruct (C5_available_steps Sample.store sample_runs_listed_once Hknown)
    as (response & Hresponse & Hidle & Hsteps & _).
  exists response. split; [exact Hresponse|]. split.
  - apply Hidle. right. left.
  - destruct (Hsteps "colors" [("blue/pr_curves", "classifying blue")])
      as (t & events & steps & Ht & Hfound & Hlook & Hlen & _).
    { left. }
    { discriminate. }
    exists steps. split; [exact Hlook|].
    injection Ht as <-. rewrite Hlen.
    change (Tensors Sample.store "colors" "blue/pr_curves")
      with (Some Sample.blue_events) in Hfound.
    injection Hfound as <-. reflexivity.
Defined.

Lemma C7_tags_impl_witness :
  NoDup (keys (PluginRunToTagToContent Sample.store PLUGIN_NAME))
  /\ exists response : gmap string (list string),
       fst (call_on (plugin_of Sample.store) tags_impl) = Return response
       /\ response !! "colors" = Some ["blue/pr_curves"]
       /\ response !! "idle" = Some [].
Proof.
  split; [exact sample_runs_listed_once|].
  destruct (C7_tags_impl_keeps_every_run Sample.store sample_runs_listed_once)
    as (response & Hresponse & _ & Hvalues & Hempty & _).
  exists response. split; [exact Hresponse|]. split.
  - apply (Hvalues "colors" [("blue/pr_curves", "classifying blue")]). left.
  - apply Hempty. right. left.
Defined.

Lemma C6_is_active_witness :
  fst (call_on (plugin_of Sample.store) is_active) = Return true
  /\ fst (call_on (plugin_of Sample.empty_store) is_active) = Return false
  /\ fst (call_on (PrCurvesPlugin__init__
                     (@Build_TBContext Sample.externals "logdir" None))
            is_active) = Return false.
Proof.
  split; [|split].
  - destruct (C6_is_active (plugin_of Sample.store))
      as (active & log & -> & _ & _ & Hiff & _).
    simpl. f_equal. apply Hiff.
    exists Sample.store, "colors", [("blue/pr_curves", "classifying blue")].
    split; [reflexivity|]. split; [left | discriminate].
  - destruct (C6_is_active (plugin_of Sample.empty_store))
      as (active & log & -> & _ & Hempty & _).
    simpl. f_equal. apply (Hempty Sample.empty_store); [reflexivity|].
    constructor.
  - destruct (C6_is_active (PrCurvesPlugin__init__
                (@Build_TBContext Sample.externals "logdir" None)))
      as (active & log & -> & Hnone & _).
    simpl. f_equal. apply Hnone. reflexivity.
Defined.

Lemma C9_both_absent_witness :
  getlist (args Sample.no_parameters) "run" = []
  /\ get (args Sample.no_parameters) "tag" = None
  /\ call_on (plugin_of Sample.store) (pr_curves_route Sample.no_parameters)
     = (Return (Respond Sample.no_parameters
                  (Text "No runs provided when fetching PR curve data")
                  (PyInt 400) None),
        {| self := plugin_of Sample.store; calls := [] |}).
Proof.
  split; [reflexivity|]. split; [reflexivity|].
  apply (proj1 (C9_runs_validated_before_tag (plugin_of Sample.store)
                  Sample.no_parameters)).
  reflexivity.
Defined.

(** ** Instances of the further properties *)

Lemma sample_sampled_tags_known :
  Forall (sampled_tag_known Sample.store)
    (PluginRunToTagToContent Sample.store PLUGIN_NAME).
Proof.
  constructor; [exists Sample.blue_events; reflexivity|].
  constructor; [exact I | constructor].
Defined.

Lemma pr_curves_impl_store_calls_witness :
  exists looked_up skipped,
    ["colors"; "missing"; "colors"] = looked_up ++ skipped
    /\ calls (snd (call_on (plugin_of Sample.store)
                     (pr_curves_impl ["colors"; "missing"; "colors"]
                        "blue/pr_curves")))
       = map (tensors_call "blue/pr_curves") looked_up.
Proof.
  destruct (pr_curves_impl_store_calls Sample.store
              ["colors"; "missing"; "colors"] "blue/pr_curves")
    as (looked_up & skipped & Hsplit & Hcalls & _).
  exists looked_up, skipped. split; [exact Hsplit | exact Hcalls].
Defined.

Lemma pr_curves_impl_run_set_witness :
  (forall run, run ∈ ["colors"; "colors"] <-> run ∈ ["colors"])
  /\ exists m : gmap string (list CurveEntry),
       fst (call_on (plugin_of Sample.store)
              (pr_curves_impl ["colors"; "colors"] "blue/pr_curves"))
       = Return m
       /\ fst (call_on (plugin_of Sample.store)
                 (pr_curves_impl ["colors"] "blue/pr_curves"))
          = Return m.
Proof.
  assert (Hsame : forall run, run ∈ ["colors"; "colors"] <-> run ∈ ["colors"]).
  { intros run. rewrite !elem_of_cons. tauto. }
  split; [exact Hsame|].
  exact (pr_curves_impl_depends_on_run_set Sample.store
           ["colors"; "colors"] ["colors"] "blue/pr_curves"
           sample_lookups_succeed Hsame).
Defined.

Lemma pr_curves_impl_app_witness :
  exists m1 m2 : gmap string (list CurveEntry),
    fst (call_on (plugin_of Sample.store)
           (pr_curves_impl ["colors"] "blue/pr_curves")) = Return m1
    /\ fst (call_on (plugin_of Sample.store)
              (pr_curves_impl ["colors"] "blue/pr_curves")) = Return m2
    /\ fst (call_on (plugin_of Sample.store)
              (pr_curves_impl (["colors"] ++ ["colors"]) "blue/pr_curves"))
       = Return (m1 ∪ m2).
Proof.
  exact (pr_curves_impl_app Sample.store ["colors"] ["colors"]
           "blue/pr_curves" sample_lookups_succeed).
Defined.

Lemma pr_curves_route_lookup_failure_witness :
  call_on (plugin_of Sample.store)
    (pr_curves_route Sample.second_run_unknown)
  = (Return (Respond Sample.second_run_unknown
               (Text "No PR curves could be fetched for run 'missing' and tag 'blue/pr_curves'")
               (PyStr "text/plain") (Some 400%Z)),
     {| self := plugin_of Sample.store;
        calls := [CallTensors "colors" "blue/pr_curves";
                  CallTensors "missing" "blue/pr_curves"] |}).
Proof.
  apply (pr_curves_route_lookup_failure Sample.store
           Sample.second_run_unknown "blue/pr_curves"
           ["colors"] "missing" []).
  - reflexivity.
  - discriminate.
  - reflexivity.
  - constructor; [|constructor]. exists Sample.blue_events.
    split; [reflexivity|].
    apply (sample_payloads_well_formed "colors" "blue/pr_curves").
    reflexivity.
  - reflexivity.
Defined.

Lemma pr_curves_route_success_witness :
  exists m : gmap string (list CurveEntry),
    fst (call_on (plugin_of Sample.store)
           (pr_curves_impl (getlist (args Sample.run_and_tag) "run")
              "blue/pr_curves")) = Return m
    /\ call_on (plugin_of Sample.store) (pr_curves_route Sample.run_and_tag)
       = (Return (Respond Sample.run_and_tag (JsonCurves m)
                    (PyStr "application/json") None),
          {| self := plugin_of Sample.store;
             calls := map (tensors_call "blue/pr_curves")
                        (getlist (args Sample.run_and_tag) "run") |}).
Proof.
  apply (pr_curves_route_success Sample.store Sample.run_and_tag
           "blue/pr_curves").
  - reflexivity.
  - discriminate.
  - discriminate.
  - constructor; [|constructor]. exists Sample.blue_events.
    split; [reflexivity|].
    apply (sample_payloads_well_formed "colors" "blue/pr_curves").
    reflexivity.
Defined.

Lemma pr_curves_route_follows_impl_witness :
  fst (call_on (plugin_of Sample.store)
         (pr_curves_route Sample.second_run_unknown))
  = Return (Respond Sample.second_run_unknown
              (Text "No PR curves could be fetched for run 'missing' and tag 'blue/pr_curves'")
              (PyStr "text/plain") (Some 400%Z))
  /\ IndexError = IndexError
  /\ fst (call_on (plugin_of Sample.ragged_store)
            (pr_curves_impl (getlist (args Sample.ragged_request) "run")
               "blue/pr_curves"))
     = Raise IndexError
  /\ exists run events,
       run ∈ getlist (args Sample.ragged_request) "run"
       /\ Tensors Sample.ragged_store run "blue/pr_curves" = Some events
       /\ Exists (fun event => ~ has_curve_rows event) events.
Proof.
  split.
  - destruct (pr_curves_route_follows_impl Sample.store
                Sample.second_run_unknown "blue/pr_curves")
      as (_ & Hcaught & _); [discriminate | reflexivity | discriminate |].
    apply Hcaught. reflexivity.
  - destruct (pr_curves_route_follows_impl Sample.ragged_store
                Sample.ragged_request "blue/pr_curves")
      as (_ & _ & Hraised & _); [discriminate | reflexivity | discriminate |].
    apply Hraised. reflexivity.
Defined.

Lemma pr_curves_route_reaches_respond_witness :
  (exists m : gmap string (list CurveEntry),
      fst (call_on (plugin_of Sample.store)
             (pr_curves_route Sample.second_run_unknown))
      = Return (Respond Sample.second_run_unknown (JsonCurves m)
                  (PyStr "application/json") None))
  \/ (exists run,
         run ∈ getlist (args Sample.second_run_unknown) "run"
         /\ Tensors Sample.store run "blue/pr_curves" = None
         /\ fst (call_on (plugin_of Sample.store)
                   (pr_curves_route Sample.second_run_unknown))
            = Return (Respond Sample.second_run_unknown
                        (Text ("No PR curves could be fetched for run "
                               +:+ repr run +:+ " and tag "
                               +:+ repr "blue/pr_curves"))
                        (PyStr "text/plain") (Some 400%Z))).
Proof.
  apply (pr_curves_route_reaches_respond Sample.store
           Sample.second_run_unknown "blue/pr_curves").
  - discriminate.
  - reflexivity.
  - discriminate.
  - intros run events. apply sample_payloads_well_formed.
Defined.

Lemma pr_curves_route_falsy_tag_witness :
  call_on (PrCurvesPlugin__init__
             (@Build_TBContext Sample.externals "logdir" None))
    (pr_curves_route Sample.empty_tag)
  = (Return (Respond Sample.empty_tag
               (Text "No tag provided when fetching PR curve data")
               (PyInt 400) None),
     {| self := PrCurvesPlugin__init__
                  (@Build_TBContext Sample.externals "logdir" None);
        calls := [] |}).
Proof.
  apply pr_curves_route_falsy_tag.
  - discriminate.
  - right. reflexivity.
Defined.

Lemma available_steps_unknown_sampled_tag_witness :
  fst (call_on (plugin_of Sample.stale_store) available_steps_impl)
  = Raise KeyError
  /\ fst (call_on (plugin_of Sample.stale_store)
            (available_steps_route Sample.no_parameters))
     = Raise KeyError.
Proof.
  apply available_steps_unknown_sampled_tag.
  left. intros [events Hfound]. discriminate.
Defined.

Lemma is_active_iff_tags_witness :
  exists (active : bool) (response : gmap string (list string)),
    fst (call_on (plugin_of Sample.store) is_active) = Return active
    /\ fst (call_on (plugin_of Sample.store) tags_impl) = Return response
    /\ (active = true <->
        exists run names, response !! run = Some names /\ names <> []).
Proof.
  exact (is_active_iff_tags_impl_lists_a_tag Sample.store
           sample_runs_listed_once).
Defined.

Lemma available_steps_keys_witness :
  exists (steps : gmap string (list Z)) (tags : gmap string (list string)),
    fst (call_on (plugin_of Sample.store) available_steps_impl) = Return steps
    /\ fst (call_on (plugin_of Sample.store) tags_impl) = Return tags
    /\ forall run,
         is_Some (steps !! run) <->
         exists names, tags !! run = Some names /\ names <> [].
Proof.
  exact (available_steps_keys_are_the_tagged_runs Sample.store
           sample_runs_listed_once sample_sampled_tags_known).
Defined.

Lemma available_steps_match_curve_entries_witness :
  exists (steps : gmap string (list Z)) (m : gmap string (list CurveEntry))
         (entries : list CurveEntry),
    fst (call_on (plugin_of Sample.store) available_steps_impl) = Return steps
    /\ fst (call_on (plugin_of Sample.store)
              (pr_curves_impl ["colors"] "blue/pr_curves")) = Return m
    /\ m !! "colors" = Some entries
    /\ steps !! "colors" = Some (map entry_step entries).
Proof.
  apply (available_steps_match_curve_entries Sample.store "colors"
           [("blue/pr_curves", "classifying blue")] "blue/pr_curves").
  - exact sample_runs_listed_once.
  - exact sample_sampled_tags_known.
  - left.
  - reflexivity.
  - apply sample_payloads_well_formed.
Defined.
